(** * Tank & Valve Simulator: the two Streamlit scripts, embedded and verified

    The repository holds two variants of one simulator:
    - [TankValveSim.py]: the tank object carries its own volume, and a valve
      control panel (the "modal") closes itself after five seconds;
    - [streamlit-tank-valve.py]: the volume lives in the session state and the
      tank object only carries the geometry.

    Numbers.  Python floats are idealised as exact rationals ([Q]); [==] is
    equality of rationals.  Rounding, infinities and NaN are outside the
    model.  A division whose divisor is zero has no rational value: it is
    [None] here (Python raises [ZeroDivisionError] on a float, numpy yields
    inf or nan on a float64).

    Time.  [time.time()] and [datetime.now()] are inputs of the blocks that
    read them. *)

From Stdlib Require Import QArith Qminmax Lqa List Sorted Bool Lia PeanoNat.
Import ListNotations.
Open Scope Q_scope.

(** ** Numeric primitives *)

(** [a < b] on floats, as a boolean. *)
Definition Qlt_bool (a b : Q) : bool := negb (Qle_bool b a).

(** [np.clip(a, a_min, a_max)]: the maximum with [a_min], then the minimum
    with [a_max] (numpy: [minimum(a_max, maximum(a, a_min))]), so that
    [a_max] wins when [a_min > a_max]. *)
Definition np_clip (a a_min a_max : Q) : Q := Qmin (Qmax a a_min) a_max.

(** [x / y] on floats; [None] where [y] is 0 and the code has no finite
    quotient: a Python float raises [ZeroDivisionError]; an [np.float64]
    (every volume that [np.clip] returned) gives nan or inf with a warning
    and the computation goes on. *)
Definition fdiv (x y : Q) : option Q :=
  if Qeq_bool y 0 then None else Some (x / y).

(** Truth value of [x] in [x and ...] where [x] is [None] or a float:
    [None] and [0.0] are false. *)
Definition truthy (x : option Q) : bool :=
  match x with
  | None => false
  | Some t => negb (Qeq_bool t 0)
  end.

(** ** History samples (the dict appended on every update, both scripts) *)

Record HistorySample : Type := mkSample {
  sample_time : Q;            (* 'time': datetime.now() *)
  sample_level : option Q;    (* 'level': tank.level() * 100 *)
  sample_Q_in : Q;            (* 'Q_in' *)
  sample_Q_out : Q            (* 'Q_out' *)
}.

(** [l.pop(0)]; it is only called on a list longer than 100. *)
Definition pop0 {X : Type} (l : list X) : list X :=
  match l with
  | [] => []
  | _ :: rest => rest
  end.

(** [history.append(s)] followed by
    [if len(history) > 100: history.pop(0)]. *)
Definition record_history {X : Type} (history : list X) (s : X) : list X :=
  let history := history ++ [s] in
  if (100 <? length history)%nat then pop0 history else history.

(** The buffer after appending the samples [ss] one by one, oldest first. *)
Definition record_all {X : Type} (history : list X) (ss : list X) : list X :=
  fold_left record_history ss history.

(** A history sample as the sliders allow it: a level in percent between 0
    and 100, an inflow between 0 and 1.5, an outflow between 0 and 1.2. *)
Definition sample_in_range (s : HistorySample) : Prop :=
  (exists l, sample_level s = Some l /\ 0 <= l /\ l <= 100)
  /\ (0 <= sample_Q_in s /\ sample_Q_in s <= 1.5)
  /\ (0 <= sample_Q_out s /\ sample_Q_out s <= 1.2).

(** ** TankValveSim.py *)

Module TankValveSim.

Record Tank : Type := mkTank {
  A : Q;        (* cross-sectional area *)
  H_max : Q;    (* normalized height *)
  V : Q         (* volume *)
}.

(** [Tank.__init__(self, area, height)]. *)
Definition Tank_init (area height : Q) : Tank :=
  {| A := area; H_max := height; V := 0 |}.

(** A call [Tank(area=..., height=...)]: [None] would be a raised
    exception; [__init__] has no [raise] and no check. *)
Definition Tank_new (area height : Q) : option Tank :=
  Some (Tank_init area height).

Definition set_V (t : Tank) (v : Q) : Tank :=
  {| A := A t; H_max := H_max t; V := v |}.

Definition set_A (t : Tank) (a : Q) : Tank :=
  {| A := a; H_max := H_max t; V := V t |}.

Definition V_max (t : Tank) : Q := A t * H_max t.

(** [step(self, dt, Q_in, Q_out)] (lines 74-78): the tank after the call
    and the value returned. *)
Definition step (t : Tank) (dt Q_in Q_out : Q) : Tank * Q :=
  let dV := (Q_in - Q_out) * dt in
  let v := np_clip (V t + dV) 0 (V_max t) in
  (set_V t v, v).

(** [level(self)] (lines 80-82):
    [min(1.0, max(0.0, self.V / self.V_max()))].  With a capacity of 0 it is
    [None]: the code raises for a plain float [self.V] and, once [self.V] is
    the [np.float64] written by [step], returns 0.0 or 1.0 from nan or inf;
    the properties below take a capacity that is not 0, but for the plain
    number of a freshly built tank. *)
Definition level (t : Tank) : option Q :=
  match fdiv (V t) (V_max t) with
  | Some r => Some (Qmin 1 (Qmax 0 r))
  | None => None
  end.

(** [is_overflow(self)] (lines 87-88): [self.V >= self.V_max() - 1e-6]. *)
Definition is_overflow (t : Tank) : bool :=
  Qle_bool (V_max t - 0.000001) (V t).

Record Valve : Type := mkValve {
  Cv : Q;          (* flow coefficient *)
  position : Q     (* 0 (closed) to 1 (open) *)
}.

Definition Valve_init (cv : Q) : Valve := {| Cv := cv; position := 0 |}.

Definition flow_rate (v : Valve) : Q := Cv v * position v.

(** [st.session_state], with the slider values the script reads
    ([inlet_flow], [outlet_flow], [tank_area]). *)
Record SessionState : Type := mkState {
  tank_volume : Q;
  inlet_open : bool;
  valve_position : Q;
  show_valve_modal : bool;
  history : list HistorySample;
  last_update : Q;
  paused : bool;
  modal_opened_at : option Q;
  tank : Tank;
  valve : Valve;
  inlet_flow : Q;
  outlet_flow : Q;
  tank_area : Q
}.

(** The state written by the first run, which reads [time.time()] as
    [now]; the sliders start at their default values. *)
Definition initial_state (now : Q) : SessionState :=
  {| tank_volume := 0; inlet_open := false; valve_position := 0;
     show_valve_modal := false; history := []; last_update := now;
     paused := false; modal_opened_at := None;
     tank := Tank_init 1.2 1; valve := Valve_init 0.8;
     inlet_flow := 0.8; outlet_flow := 0.35; tank_area := 1.2 |}.

Definition set_inlet_open (st : SessionState) (b : bool) : SessionState :=
  {| tank_volume := tank_volume st; inlet_open := b;
     valve_position := valve_position st;
     show_valve_modal := show_valve_modal st; history := history st;
     last_update := last_update st; paused := paused st;
     modal_opened_at := modal_opened_at st; tank := tank st;
     valve := valve st; inlet_flow := inlet_flow st;
     outlet_flow := outlet_flow st; tank_area := tank_area st |}.

Definition set_show_valve_modal (st : SessionState) (b : bool)
  : SessionState :=
  {| tank_volume := tank_volume st; inlet_open := inlet_open st;
     valve_position := valve_position st;
     show_valve_modal := b; history := history st;
     last_update := last_update st; paused := paused st;
     modal_opened_at := modal_opened_at st; tank := tank st;
     valve := valve st; inlet_flow := inlet_flow st;
     outlet_flow := outlet_flow st; tank_area := tank_area st |}.

Definition set_history (st : SessionState) (h : list HistorySample)
  : SessionState :=
  {| tank_volume := tank_volume st; inlet_open := inlet_open st;
     valve_position := valve_position st;
     show_valve_modal := show_valve_modal st; history := h;
     last_update := last_update st; paused := paused st;
     modal_opened_at := modal_opened_at st; tank := tank st;
     valve := valve st; inlet_flow := inlet_flow st;
     outlet_flow := outlet_flow st; tank_area := tank_area st |}.

Definition set_last_update (st : SessionState) (t : Q) : SessionState :=
  {| tank_volume := tank_volume st; inlet_open := inlet_open st;
     valve_position := valve_position st;
     show_valve_modal := show_valve_modal st; history := history st;
     last_update := t; paused := paused st;
     modal_opened_at := modal_opened_at st; tank := tank st;
     valve := valve st; inlet_flow := inlet_flow st;
     outlet_flow := outlet_flow st; tank_area := tank_area st |}.

Definition set_paused (st : SessionState) (b : bool) : SessionState :=
  {| tank_volume := tank_volume st; inlet_open := inlet_open st;
     valve_position := valve_position st;
     show_valve_modal := show_valve_modal st; history := history st;
     last_update := last_update st; paused := b;
     modal_opened_at := modal_opened_at st; tank := tank st;
     valve := valve st; inlet_flow := inlet_flow st;
     outlet_flow := outlet_flow st; tank_area := tank_area st |}.

Definition set_modal_opened_at (st : SessionState) (t : option Q)
  : SessionState :=
  {| tank_volume := tank_volume st; inlet_open := inlet_open st;
     valve_position := valve_position st;
     show_valve_modal := show_valve_modal st; history := history st;
     last_update := last_update st; paused := paused st;
     modal_opened_at := t; tank := tank st;
     valve := valve st; inlet_flow := inlet_flow st;
     outlet_flow := outlet_flow st; tank_area := tank_area st |}.

Definition set_tank (st : SessionState) (t : Tank) : SessionState :=
  {| tank_volume := tank_volume st; inlet_open := inlet_open st;
     valve_position := valve_position st;
     show_valve_modal := show_valve_modal st; history := history st;
     last_update := last_update st; paused := paused st;
     modal_opened_at := modal_opened_at st; tank := t;
     valve := valve st; inlet_flow := inlet_flow st;
     outlet_flow := outlet_flow st; tank_area := tank_area st |}.

(** "Open Valve Control" button (lines 200-202), pressed when [time.time()]
    is [now]. *)
Definition open_valve_control (now : Q) (st : SessionState)
  : SessionState :=
  let st := set_show_valve_modal st true in
  set_modal_opened_at st (Some now).

(** "Close" button of the modal (lines 293-294). *)
Definition close_modal (st : SessionState) : SessionState :=
  set_show_valve_modal st false.

(** Inlet toggle button. *)
Definition toggle_inlet (st : SessionState) : SessionState :=
  set_inlet_open st (negb (inlet_open st)).

(** Pause / Resume button. *)
Definition toggle_pause (st : SessionState) : SessionState :=
  set_paused st (negb (paused st)).

(** Reset button (lines 259-262). *)
Definition reset (st : SessionState) : SessionState :=
  let st := set_tank st (set_V (tank st) 0) in
  let st := set_inlet_open st false in
  set_history st [].

(** The timeout check at the head of the modal block (lines 278-282), run
    when [time.time()] is [now]:
    [if show_valve_modal:
       if modal_opened_at and (time.time() - modal_opened_at) > 5:
         show_valve_modal = False]. *)
Definition modal_timeout_check (now : Q) (st : SessionState)
  : SessionState :=
  if show_valve_modal st then
    match modal_opened_at st with
    | Some t0 =>
        if truthy (Some t0) && Qlt_bool 5 (now - t0)
        then set_show_valve_modal st false
        else st
    | None => st
    end
  else st.

(** The time step of an update (lines 331-332):
    [dt = current_time - last_update; dt = min(dt, 0.1)]. *)
Definition tick_dt (current_time last : Q) : Q :=
  let dt := current_time - last in
  Qmin dt 0.1.

(** The "Simulation update" block (lines 329-350): [current_time] is
    [time.time()], [wall] is [datetime.now()]. *)
Definition simulation_update (current_time wall : Q) (st : SessionState)
  : SessionState :=
  if negb (paused st) then
    let dt := tick_dt current_time (last_update st) in
    let Q_in := if inlet_open st then inlet_flow st else 0 in
    let Q_out := outlet_flow st in
    let st := set_tank st (fst (step (tank st) dt Q_in Q_out)) in
    let st := set_last_update st current_time in
    let sample :=
      {| sample_time := wall;
         sample_level := option_map (fun l => l * 100) (level (tank st));
         sample_Q_in := Q_in;
         sample_Q_out := Q_out |} in
    set_history st (record_history (history st) sample)
  else st.

(** The modal state after the reruns whose timeout checks read the clock
    values [ticks], in that order, with no button pressed in between. *)
Definition modal_ticks (ticks : list Q) (st : SessionState) : SessionState :=
  fold_left (fun s now => modal_timeout_check now s) ticks st.

(** *** The rest of the script: sliders, modal buttons, one whole run *)

Definition set_valve_position (st : SessionState) (p : Q) : SessionState :=
  {| tank_volume := tank_volume st; inlet_open := inlet_open st;
     valve_position := p;
     show_valve_modal := show_valve_modal st; history := history st;
     last_update := last_update st; paused := paused st;
     modal_opened_at := modal_opened_at st; tank := tank st;
     valve := valve st; inlet_flow := inlet_flow st;
     outlet_flow := outlet_flow st; tank_area := tank_area st |}.

(** The three sliders of the control column (lines 219-244) return their
    current values, stored under their widget keys. *)
Definition set_sliders (st : SessionState) (q_in q_out area : Q)
  : SessionState :=
  {| tank_volume := tank_volume st; inlet_open := inlet_open st;
     valve_position := valve_position st;
     show_valve_modal := show_valve_modal st; history := history st;
     last_update := last_update st; paused := paused st;
     modal_opened_at := modal_opened_at st; tank := tank st;
     valve := valve st; inlet_flow := q_in;
     outlet_flow := q_out; tank_area := area |}.

(** Whether the timeout check (line 280) finds the modal expired. *)
Definition modal_expired (now : Q) (st : SessionState) : bool :=
  match modal_opened_at st with
  | Some t0 => truthy (Some t0) && Qlt_bool 5 (now - t0)
  | None => false
  end.

(** What one run of the script receives from outside: the buttons that
    report a click, the values the sliders return and the clock readings. *)
Record RunInput : Type := mkInput {
  run_open_clicked : bool;         (* "Open Valve Control" *)
  run_open_time : Q;               (* time.time() in its handler *)
  run_inlet_clicked : bool;        (* inlet toggle *)
  run_inlet_flow : Q;              (* slider, 0.0 to 1.5 *)
  run_outlet_flow : Q;             (* slider, 0.0 to 1.2 *)
  run_tank_area : Q;               (* slider, 0.5 to 3.0 *)
  run_pause_clicked : bool;
  run_reset_clicked : bool;
  run_modal_time : Q;              (* time.time() in the timeout check *)
  run_close_clicked : bool;        (* "Close" in the modal *)
  run_valve_pos : Z;               (* modal slider, 0 to 100 *)
  run_fully_open_clicked : bool;
  run_fully_close_clicked : bool;
  run_current_time : Q;            (* time.time() in the update block *)
  run_wall : Q                     (* datetime.now() *)
}.

(** The modal block (lines 277-323).  The flag tells whether the block ended
    in [st.rerun()], which abandons the rest of the run. *)
Definition modal_block (i : RunInput) (st : SessionState)
  : SessionState * bool :=
  if show_valve_modal st then
    if modal_expired (run_modal_time i) st then
      (modal_timeout_check (run_modal_time i) st, true)
    else if run_close_clicked i then
      (set_show_valve_modal st false, true)
    else
      let st := set_valve_position st (inject_Z (run_valve_pos i) / 100) in
      if run_fully_open_clicked i then (set_valve_position st 1, true)
      else if run_fully_close_clicked i then (set_valve_position st 0, true)
      else (st, false)
  else (st, false).

(** One run of the script on an initialised session (lines 107-350).  The
    drawing code (figure, readouts, chart) only reads the state and is left
    out; it divides by [V_max], which is not 0 while the area slider stays in
    its range. *)
Definition script_run (i : RunInput) (st : SessionState) : SessionState :=
  let st := if run_open_clicked i
            then open_valve_control (run_open_time i) st else st in
  let st := if run_inlet_clicked i then toggle_inlet st else st in
  let st := set_sliders st (run_inlet_flow i) (run_outlet_flow i)
              (run_tank_area i) in
  let st := set_tank st (set_A (tank st) (run_tank_area i)) in
  let st := if run_pause_clicked i then toggle_pause st else st in
  let st := if run_reset_clicked i then reset st else st in
  let '(st, rerun) := modal_block i st in
  if rerun then st
  else simulation_update (run_current_time i) (run_wall i) st.

(** The session after the runs fed with [inputs], the first run having
    initialised the state at clock value [t0]. *)
Definition session (t0 : Q) (inputs : list RunInput) : SessionState :=
  fold_left (fun st i => script_run i st) inputs (initial_state t0).

(** The ranges the slider widgets are declared with. *)
Definition sliders_in_range (i : RunInput) : Prop :=
  (0 <= run_inlet_flow i /\ run_inlet_flow i <= 1.5)
  /\ (0 <= run_outlet_flow i /\ run_outlet_flow i <= 1.2)
  /\ (0.5 <= run_tank_area i /\ run_tank_area i <= 3)
  /\ (0 <= run_valve_pos i <= 100)%Z.

(** The same input with another value returned by the modal's valve
    slider. *)
Definition with_valve_pos (i : RunInput) (z : Z) : RunInput :=
  {| run_open_clicked := run_open_clicked i;
     run_open_time := run_open_time i;
     run_inlet_clicked := run_inlet_clicked i;
     run_inlet_flow := run_inlet_flow i;
     run_outlet_flow := run_outlet_flow i;
     run_tank_area := run_tank_area i;
     run_pause_clicked := run_pause_clicked i;
     run_reset_clicked := run_reset_clicked i;
     run_modal_time := run_modal_time i;
     run_close_clicked := run_close_clicked i;
     run_valve_pos := z;
     run_fully_open_clicked := run_fully_open_clicked i;
     run_fully_close_clicked := run_fully_close_clicked i;
     run_current_time := run_current_time i;
     run_wall := run_wall i |}.

(** The invariant of a session whose sliders stay in their ranges. *)
Definition session_ok (st : SessionState) : Prop :=
  (length (history st) <= 100)%nat
  /\ (0 <= V (tank st) /\ V (tank st) <= 3)
  /\ (0.5 <= A (tank st) /\ A (tank st) <= 3)
  /\ H_max (tank st) = 1
  /\ (0 <= inlet_flow st /\ inlet_flow st <= 1.5)
  /\ (0 <= outlet_flow st /\ outlet_flow st <= 1.2)
  /\ (0 <= valve_position st /\ valve_position st <= 1)
  /\ valve st = Valve_init 0.8
  /\ Forall sample_in_range (history st).

End TankValveSim.

(** ** streamlit-tank-valve.py *)

Module StreamlitTankValve.

Record Tank : Type := mkTank {
  A : Q;
  H_max : Q
}.

(** [Tank.__init__(self, area, height)]. *)
Definition Tank_init (area height : Q) : Tank :=
  {| A := area; H_max := height |}.

(** A call [Tank(area=..., height=...)]: [None] would be a raised
    exception; [__init__] has no [raise] and no check. *)
Definition Tank_new (area height : Q) : option Tank :=
  Some (Tank_init area height).

Definition set_A (t : Tank) (a : Q) : Tank :=
  {| A := a; H_max := H_max t |}.

Definition V_max (t : Tank) : Q := A t * H_max t.

(** [step(self, volume, dt, Q_in, Q_out)] (lines 60-64). *)
Definition step (t : Tank) (volume dt Q_in Q_out : Q) : Q :=
  let dV := (Q_in - Q_out) * dt in
  let new_volume := np_clip (volume + dV) 0 (V_max t) in
  new_volume.

(** [level(self, volume)] (lines 66-68):
    [min(1.0, max(0.0, volume / self.V_max()))].  With a capacity of 0 it is
    [None]: the code raises for a plain float [volume] and, for the
    [np.float64] that [step] returns, gives 0.0 or 1.0 from nan or inf; the
    properties below take a capacity that is not 0, but for the plain
    number of a freshly built tank. *)
Definition level (t : Tank) (volume : Q) : option Q :=
  match fdiv volume (V_max t) with
  | Some r => Some (Qmin 1 (Qmax 0 r))
  | None => None
  end.

(** [is_overflow(self, volume)] (lines 73-74):
    [volume >= self.V_max() - 1e-6]. *)
Definition is_overflow (t : Tank) (volume : Q) : bool :=
  Qle_bool (V_max t - 0.000001) volume.

(** [st.session_state]; the two flow keys are absent until the sliders
    have been drawn once. *)
Record SessionState : Type := mkState {
  tank_volume : Q;
  inlet_open : bool;
  valve_position : Q;
  history : list HistorySample;
  last_update : Q;
  paused : bool;
  tank_area : Q;
  inlet_flow_value : option Q;
  outlet_flow_value : option Q
}.

(** The state written by the first run, which reads [time.time()] as
    [now]. *)
Definition initial_state (now : Q) : SessionState :=
  {| tank_volume := 0; inlet_open := false; valve_position := 0;
     history := []; last_update := now; paused := false;
     tank_area := 1.2;
     inlet_flow_value := None; outlet_flow_value := None |}.

(** [st.session_state.get(key, default)]. *)
Definition get (entry : option Q) (default : Q) : Q :=
  match entry with
  | Some x => x
  | None => default
  end.

Definition set_tank_volume (st : SessionState) (v : Q) : SessionState :=
  {| tank_volume := v; inlet_open := inlet_open st;
     valve_position := valve_position st; history := history st;
     last_update := last_update st; paused := paused st;
     tank_area := tank_area st;
     inlet_flow_value := inlet_flow_value st;
     outlet_flow_value := outlet_flow_value st |}.

Definition set_inlet_open (st : SessionState) (b : bool) : SessionState :=
  {| tank_volume := tank_volume st; inlet_open := b;
     valve_position := valve_position st; history := history st;
     last_update := last_update st; paused := paused st;
     tank_area := tank_area st;
     inlet_flow_value := inlet_flow_value st;
     outlet_flow_value := outlet_flow_value st |}.

Definition set_history (st : SessionState) (h : list HistorySample)
  : SessionState :=
  {| tank_volume := tank_volume st; inlet_open := inlet_open st;
     valve_position := valve_position st; history := h;
     last_update := last_update st; paused := paused st;
     tank_area := tank_area st;
     inlet_flow_value := inlet_flow_value st;
     outlet_flow_value := outlet_flow_value st |}.

Definition set_last_update (st : SessionState) (t : Q) : SessionState :=
  {| tank_volume := tank_volume st; inlet_open := inlet_open st;
     valve_position := valve_position st; history := history st;
     last_update := t; paused := paused st;
     tank_area := tank_area st;
     inlet_flow_value := inlet_flow_value st;
     outlet_flow_value := outlet_flow_value st |}.

Definition set_paused (st : SessionState) (b : bool) : SessionState :=
  {| tank_volume := tank_volume st; inlet_open := inlet_open st;
     valve_position := valve_position st; history := history st;
     last_update := last_update st; paused := b;
     tank_area := tank_area st;
     inlet_flow_value := inlet_flow_value st;
     outlet_flow_value := outlet_flow_value st |}.

(** [tank = Tank(area=st.session_state.tank_area, height=1.0)], built
    anew by every run of the script. *)
Definition create_tank (st : SessionState) : Tank :=
  Tank_init (tank_area st) 1.

(** Inlet toggle button. *)
Definition toggle_inlet (st : SessionState) : SessionState :=
  set_inlet_open st (negb (inlet_open st)).

(** Pause / Resume button. *)
Definition toggle_pause (st : SessionState) : SessionState :=
  set_paused st (negb (paused st)).

(** Reset button (lines 255-258; the [st.rerun()] that follows starts the
    next run from this state). *)
Definition reset (st : SessionState) : SessionState :=
  let st := set_tank_volume st 0 in
  let st := set_inlet_open st false in
  set_history st [].

(** The time step of an update (line 85):
    [dt = min(current_time - last_update, 0.1)]. *)
Definition tick_dt (current_time last : Q) : Q :=
  Qmin (current_time - last) 0.1.

(** The "Simulation update" block (lines 83-110): [current_time] is
    [time.time()], [wall] is [datetime.now()], [tank] is the tank object of
    this run.
    Returns the tank object and the session state after the block. *)
Definition simulation_update (current_time wall : Q) (tank : Tank)
    (st : SessionState) : Tank * SessionState :=
  if negb (paused st) then
    let dt := tick_dt current_time (last_update st) in
    let inlet_flow := get (inlet_flow_value st) 0.8 in
    let outlet_flow := get (outlet_flow_value st) 0.35 in
    let Q_in := if inlet_open st then inlet_flow else 0 in
    let Q_out := outlet_flow in
    let tank := set_A tank (tank_area st) in
    let st := set_tank_volume st (step tank (tank_volume st) dt Q_in Q_out) in
    let st := set_last_update st current_time in
    let sample :=
      {| sample_time := wall;
         sample_level :=
           option_map (fun l => l * 100) (level tank (tank_volume st));
         sample_Q_in := Q_in;
         sample_Q_out := Q_out |} in
    (tank, set_history st (record_history (history st) sample))
  else (tank, st).

(** One run of the script up to the end of the update block. *)
Definition run_update (current_time wall : Q) (st : SessionState)
  : Tank * SessionState :=
  simulation_update current_time wall (create_tank st) st.

(** *** The rest of the script: sliders and one whole run *)

(** The three sliders (lines 212-240) return their current values, which
    the script stores in the session state. *)
Definition set_sliders (st : SessionState) (q_in q_out area : Q)
  : SessionState :=
  {| tank_volume := tank_volume st; inlet_open := inlet_open st;
     valve_position := valve_position st; history := history st;
     last_update := last_update st; paused := paused st;
     tank_area := area;
     inlet_flow_value := Some q_in;
     outlet_flow_value := Some q_out |}.

(** What one run of the script receives from outside: the buttons that
    report a click, the values the sliders return and the clock readings. *)
Record RunInput : Type := mkInput {
  run_current_time : Q;            (* time.time() in the update block *)
  run_wall : Q;                    (* datetime.now() *)
  run_inlet_clicked : bool;        (* inlet toggle *)
  run_inlet_flow : Q;              (* slider, 0.0 to 1.5 *)
  run_outlet_flow : Q;             (* slider, 0.0 to 1.2 *)
  run_tank_area : Q;               (* slider, 0.5 to 3.0 *)
  run_pause_clicked : bool;
  run_reset_clicked : bool
}.

(** One run of the script on an initialised session (lines 76-259); a
    handler ending in [st.rerun()] abandons the rest of the run.  The
    drawing code (figure, readouts, chart) only reads the state and is left
    out; it divides by [V_max], which is not 0 while the area slider stays in
    its range. *)
Definition script_run (i : RunInput) (st : SessionState) : SessionState :=
  let st := snd (run_update (run_current_time i) (run_wall i) st) in
  if run_inlet_clicked i then toggle_inlet st
  else
    let st := set_sliders st (run_inlet_flow i) (run_outlet_flow i)
                (run_tank_area i) in
    if run_pause_clicked i then toggle_pause st
    else if run_reset_clicked i then reset st
    else st.

(** The session after the runs fed with [inputs], the first run having
    initialised the state at clock value [t0]. *)
Definition session (t0 : Q) (inputs : list RunInput) : SessionState :=
  fold_left (fun st i => script_run i st) inputs (initial_state t0).

(** The ranges the slider widgets are declared with. *)
Definition sliders_in_range (i : RunInput) : Prop :=
  (0 <= run_inlet_flow i /\ run_inlet_flow i <= 1.5)
  /\ (0 <= run_outlet_flow i /\ run_outlet_flow i <= 1.2)
  /\ (0.5 <= run_tank_area i /\ run_tank_area i <= 3).

(** The invariant of a session whose sliders stay in their ranges. *)
Definition session_ok (st : SessionState) : Prop :=
  (length (history st) <= 100)%nat
  /\ (0 <= tank_volume st /\ tank_volume st <= 3)
  /\ (0.5 <= tank_area st /\ tank_area st <= 3)
  /\ (0 <= get (inlet_flow_value st) 0.8
      /\ get (inlet_flow_value st) 0.8 <= 1.5)
  /\ (0 <= get (outlet_flow_value st) 0.35
      /\ get (outlet_flow_value st) 0.35 <= 1.2)
  /\ Forall sample_in_range (history st).

End StreamlitTankValve.

(** ** Sample data for the examples *)

(** 100 distinct samples, taken at times 1, 2, ..., 100. *)
Definition hundred_samples : list HistorySample :=
  map (fun n => mkSample (inject_Z (Z.of_nat n)) (Some 0) 0 0.35) (seq 1 100).

(** * Properties *)

(** Closed comparisons of rationals, by computation. *)
Ltac q_closed := vm_compute; first [reflexivity | discriminate].

(** ** Clipping *)

Lemma np_clip_le_max (a lo hi : Q) : np_clip a lo hi <= hi.
Proof. unfold np_clip. apply Q.le_min_r. Qed.

Lemma np_clip_ge_min (a lo hi : Q) : lo <= hi -> lo <= np_clip a lo hi.
Proof.
  intros Hlh. unfold np_clip.
  apply Q.min_glb; [apply Q.le_max_r | exact Hlh].
Qed.

Lemma np_clip_inside (a lo hi : Q) :
  lo <= a -> a <= hi -> np_clip a lo hi == a.
Proof.
  intros Hlo Hhi. unfold np_clip.
  rewrite (Q.max_l a lo) by exact Hlo.
  apply Q.min_l. exact Hhi.
Qed.

Lemma np_clip_mono (a b lo hi : Q) :
  a <= b -> np_clip a lo hi <= np_clip b lo hi.
Proof.
  intros Hab. unfold np_clip.
  apply Q.min_le_compat_r. apply Q.max_le_compat_r. exact Hab.
Qed.

Lemma np_clip_range (a hi : Q) :
  0 <= hi -> 0 <= np_clip a 0 hi /\ np_clip a 0 hi <= hi.
Proof.
  intros Hhi. split; [apply np_clip_ge_min; exact Hhi | apply np_clip_le_max].
Qed.

(** ** Level readout *)

Lemma fdiv_defined (x y : Q) : ~ y == 0 -> fdiv x y = Some (x / y).
Proof.
  intros Hy. unfold fdiv.
  destruct (Qeq_bool y 0) eqn:E; [| reflexivity].
  apply Qeq_bool_iff in E. contradiction.
Qed.

(** For a volume inside the tank, the clamped fraction times the capacity
    gives the volume back. *)
Lemma fraction_times_capacity (c vmax : Q) :
  0 < vmax -> 0 <= c -> c <= vmax ->
  Qmin 1 (Qmax 0 (c / vmax)) * vmax == c.
Proof.
  intros Hpos Hc0 Hc1.
  assert (Hne : ~ vmax == 0) by lra.
  assert (H0 : 0 <= c / vmax) by (apply Qle_shift_div_l; lra).
  assert (H1 : c / vmax <= 1) by (apply Qle_shift_div_r; lra).
  rewrite (Q.max_r 0 (c / vmax)) by exact H0.
  rewrite (Q.min_r 1 (c / vmax)) by exact H1.
  field. exact Hne.
Qed.

Lemma flow_product_mono (q d1 d2 : Q) : 0 <= q -> d1 <= d2 -> q * d1 <= q * d2.
Proof. intros Hq Hd. nra. Qed.

(** With a positive capacity, the level of the stepped volume is defined
    and, times the capacity, it is the stepped volume itself. *)
Lemma level_of_step_streamlit (t : StreamlitTankValve.Tank)
    (volume dt Q_in Q_out : Q) :
  0 < StreamlitTankValve.V_max t ->
  exists l,
    StreamlitTankValve.level t (StreamlitTankValve.step t volume dt Q_in Q_out)
      = Some l
    /\ l * StreamlitTankValve.V_max t
       == StreamlitTankValve.step t volume dt Q_in Q_out.
Proof.
  intros Hpos. unfold StreamlitTankValve.level, StreamlitTankValve.step.
  rewrite fdiv_defined by lra.
  eexists. split; [reflexivity |].
  destruct (np_clip_range (volume + (Q_in - Q_out) * dt)
              (StreamlitTankValve.V_max t)) as [H0 H1]; [lra |].
  apply fraction_times_capacity; assumption.
Qed.

Lemma level_of_step_sim (t : TankValveSim.Tank) (dt Q_in Q_out : Q) :
  0 < TankValveSim.V_max t ->
  exists l,
    TankValveSim.level (fst (TankValveSim.step t dt Q_in Q_out)) = Some l
    /\ l * TankValveSim.V_max t == snd (TankValveSim.step t dt Q_in Q_out).
Proof.
  intros Hpos. unfold TankValveSim.level, TankValveSim.step.
  cbn [fst snd]. unfold TankValveSim.V_max, TankValveSim.set_V.
  cbn [TankValveSim.A TankValveSim.H_max TankValveSim.V].
  fold (TankValveSim.V_max t).
  rewrite fdiv_defined by lra.
  eexists. split; [reflexivity |].
  destruct (np_clip_range (TankValveSim.V t + (Q_in - Q_out) * dt)
              (TankValveSim.V_max t)) as [H0 H1]; [lra |].
  apply fraction_times_capacity; assumption.
Qed.

Lemma positive_geometry (a h : Q) : 0 < a -> 0 < h -> 0 < a * h.
Proof. intros Ha Hh. nra. Qed.

(** ** The integration step *)

(** C1. Starting from a volume between 0 and the capacity
    [V_max = A * H_max], with non-negative flows and a time step between 0
    and 0.1, [Tank.step] returns a volume between 0 and the capacity, in both
    scripts (and the stored volume of [TankValveSim.py] is that value). *)
Theorem step_within_capacity :
  (forall (t : StreamlitTankValve.Tank) (volume dt Q_in Q_out : Q),
      0 <= volume -> volume <= StreamlitTankValve.V_max t ->
      0 <= Q_in -> 0 <= Q_out -> 0 <= dt -> dt <= 0.1 ->
      0 <= StreamlitTankValve.step t volume dt Q_in Q_out
      /\ StreamlitTankValve.step t volume dt Q_in Q_out
         <= StreamlitTankValve.V_max t)
  /\
  (forall (t : TankValveSim.Tank) (dt Q_in Q_out : Q),
      0 <= TankValveSim.V t -> TankValveSim.V t <= TankValveSim.V_max t ->
      0 <= Q_in -> 0 <= Q_out -> 0 <= dt -> dt <= 0.1 ->
      0 <= snd (TankValveSim.step t dt Q_in Q_out)
      /\ snd (TankValveSim.step t dt Q_in Q_out) <= TankValveSim.V_max t
      /\ TankValveSim.V (fst (TankValveSim.step t dt Q_in Q_out))
         = snd (TankValveSim.step t dt Q_in Q_out)
      /\ TankValveSim.V_max (fst (TankValveSim.step t dt Q_in Q_out))
         = TankValveSim.V_max t).
Proof.
  split.
  - intros t volume dt Q_in Q_out Hv0 Hv1 _ _ _ _.
    unfold StreamlitTankValve.step.
    apply np_clip_range. lra.
  - intros t dt Q_in Q_out Hv0 Hv1 _ _ _ _.
    unfold TankValveSim.step. cbn [fst snd].
    destruct (np_clip_range
                (TankValveSim.V t + (Q_in - Q_out) * dt)
                (TankValveSim.V_max t)) as [H0 H1]; [lra |].
    repeat split; assumption.
Qed.

Lemma step_within_capacity_witness :
  (0 <= 1.1 /\ 1.1 <= StreamlitTankValve.V_max (StreamlitTankValve.Tank_init 1.2 1)
   /\ 0 <= 1.5 /\ 0 <= 0.35 /\ 0 <= 0.1 /\ 0.1 <= 0.1)
  /\ 0 <= StreamlitTankValve.step (StreamlitTankValve.Tank_init 1.2 1)
            1.1 0.1 1.5 0.35
  /\ StreamlitTankValve.step (StreamlitTankValve.Tank_init 1.2 1)
       1.1 0.1 1.5 0.35
     <= StreamlitTankValve.V_max (StreamlitTankValve.Tank_init 1.2 1).
Proof.
  assert (H0 : 0 <= 1.1) by q_closed.
  assert (H1 : 1.1 <= StreamlitTankValve.V_max
                        (StreamlitTankValve.Tank_init 1.2 1))
    by q_closed.
  assert (H2 : 0 <= 1.5) by q_closed.
  assert (H3 : 0 <= 0.35) by q_closed.
  assert (H4 : 0 <= 0.1) by q_closed.
  assert (H5 : 0.1 <= 0.1) by q_closed.
  split; [repeat split; assumption |].
  exact (proj1 step_within_capacity
           (StreamlitTankValve.Tank_init 1.2 1) 1.1 0.1 1.5 0.35
           H0 H1 H2 H3 H4 H5).
Defined.

(** C6, as stated, fails outside the tank's range: with capacity 1.2 a
    stored volume of 2 (left over from a wider tank) is cut down to 1.2 by a
    step of zero duration. *)
Lemma zero_step_clamps_excess_volume :
  StreamlitTankValve.step (StreamlitTankValve.Tank_init 1.2 1) 2 0 0.8 0.35
    == 1.2
  /\ ~ StreamlitTankValve.step (StreamlitTankValve.Tank_init 1.2 1)
         2 0 0.8 0.35 == 2.
Proof.
  split.
  - vm_compute. reflexivity.
  - vm_compute. discriminate.
Qed.

(** C6 (amended). A step with [dt = 0] returns the clamped volume whatever
    the flows; for a volume between 0 and the capacity that is the volume
    itself. *)
Theorem zero_step_keeps_volume_in_range :
  (forall (t : StreamlitTankValve.Tank) (v Q_in Q_out : Q),
      StreamlitTankValve.step t v 0 Q_in Q_out
        == np_clip v 0 (StreamlitTankValve.V_max t)
      /\ (0 <= v -> v <= StreamlitTankValve.V_max t ->
          StreamlitTankValve.step t v 0 Q_in Q_out == v))
  /\
  (forall (t : TankValveSim.Tank) (Q_in Q_out : Q),
      snd (TankValveSim.step t 0 Q_in Q_out)
        == np_clip (TankValveSim.V t) 0 (TankValveSim.V_max t)
      /\ (0 <= TankValveSim.V t ->
          TankValveSim.V t <= TankValveSim.V_max t ->
          snd (TankValveSim.step t 0 Q_in Q_out) == TankValveSim.V t
          /\ TankValveSim.V (fst (TankValveSim.step t 0 Q_in Q_out))
             == TankValveSim.V t)).
Proof.
  assert (Hsame : forall v q1 q2 hi,
             np_clip (v + (q1 - q2) * 0) 0 hi == np_clip v 0 hi).
  { intros v q1 q2 hi. unfold np_clip.
    assert (E : v + (q1 - q2) * 0 == v) by ring.
    rewrite E. reflexivity. }
  split.
  - intros t v Q_in Q_out. unfold StreamlitTankValve.step.
    split; [apply Hsame |].
    intros H0 H1. rewrite Hsame. apply np_clip_inside; assumption.
  - intros t Q_in Q_out. unfold TankValveSim.step. cbn [fst snd].
    cbn [TankValveSim.set_V TankValveSim.V].
    split; [apply Hsame |].
    intros H0 H1. rewrite Hsame.
    split; apply np_clip_inside; assumption.
Qed.

Lemma zero_step_keeps_volume_in_range_witness :
  (0 <= 0.45
   /\ 0.45 <= StreamlitTankValve.V_max (StreamlitTankValve.Tank_init 1.2 1))
  /\ StreamlitTankValve.step (StreamlitTankValve.Tank_init 1.2 1)
       0.45 0 0.8 0.35 == 0.45.
Proof.
  assert (H0 : 0 <= 0.45) by q_closed.
  assert (H1 : 0.45 <= StreamlitTankValve.V_max
                         (StreamlitTankValve.Tank_init 1.2 1))
    by q_closed.
  split; [split; assumption |].
  exact (proj2 (proj1 zero_step_keeps_volume_in_range
                  (StreamlitTankValve.Tank_init 1.2 1) 0.45 0.8 0.35)
           H0 H1).
Defined.

(** C7. For a tank of positive geometry, filled from empty with a fixed
    positive inflow and no outflow, the readout [level * V_max] after the
    step does not decrease when [dt] grows; it grows strictly as long as the
    tank is not yet full ([0 <= dt1 < dt2] and [Q_in * dt2 <= V_max]). *)
Theorem filling_level_monotone_in_dt :
  (forall (t : StreamlitTankValve.Tank) (Q_in dt1 dt2 : Q),
      0 < StreamlitTankValve.A t -> 0 < StreamlitTankValve.H_max t ->
      0 < Q_in -> dt1 <= dt2 ->
      exists l1 l2,
        StreamlitTankValve.level t (StreamlitTankValve.step t 0 dt1 Q_in 0)
          = Some l1
        /\ StreamlitTankValve.level t (StreamlitTankValve.step t 0 dt2 Q_in 0)
           = Some l2
        /\ l1 * StreamlitTankValve.V_max t <= l2 * StreamlitTankValve.V_max t
        /\ (0 <= dt1 -> dt1 < dt2 ->
            Q_in * dt2 <= StreamlitTankValve.V_max t ->
            l1 * StreamlitTankValve.V_max t
            < l2 * StreamlitTankValve.V_max t))
  /\
  (forall (t : TankValveSim.Tank) (Q_in dt1 dt2 : Q),
      0 < TankValveSim.A t -> 0 < TankValveSim.H_max t ->
      TankValveSim.V t = 0 ->
      0 < Q_in -> dt1 <= dt2 ->
      exists l1 l2,
        TankValveSim.level (fst (TankValveSim.step t dt1 Q_in 0)) = Some l1
        /\ TankValveSim.level (fst (TankValveSim.step t dt2 Q_in 0)) = Some l2
        /\ l1 * TankValveSim.V_max t <= l2 * TankValveSim.V_max t
        /\ (0 <= dt1 -> dt1 < dt2 ->
            Q_in * dt2 <= TankValveSim.V_max t ->
            l1 * TankValveSim.V_max t < l2 * TankValveSim.V_max t)).
Proof.
  assert (Hweak : forall q d1 d2 hi, 0 < q -> d1 <= d2 ->
             np_clip (0 + (q - 0) * d1) 0 hi <= np_clip (0 + (q - 0) * d2) 0 hi).
  { intros q d1 d2 hi Hq Hd. apply np_clip_mono.
    assert (q * d1 <= q * d2) by (apply flow_product_mono; lra). lra. }
  assert (Hstrict : forall q d1 d2 hi, 0 < q -> 0 <= d1 -> d1 < d2 ->
             q * d2 <= hi ->
             np_clip (0 + (q - 0) * d1) 0 hi < np_clip (0 + (q - 0) * d2) 0 hi).
  { intros q d1 d2 hi Hq H0 Hd Hfull.
    assert (Hlt : q * d1 < q * d2) by nra.
    assert (Hp1 : 0 <= q * d1) by nra.
    rewrite (np_clip_inside (0 + (q - 0) * d1) 0 hi) by lra.
    rewrite (np_clip_inside (0 + (q - 0) * d2) 0 hi) by lra.
    lra. }
  split.
  - intros t Q_in dt1 dt2 HA HH Hq Hd.
    assert (Hpos : 0 < StreamlitTankValve.V_max t)
      by (apply positive_geometry; assumption).
    destruct (level_of_step_streamlit t 0 dt1 Q_in 0 Hpos) as [l1 [E1 R1]].
    destruct (level_of_step_streamlit t 0 dt2 Q_in 0 Hpos) as [l2 [E2 R2]].
    exists l1, l2. split; [exact E1 | split; [exact E2 |]].
    rewrite R1, R2. unfold StreamlitTankValve.step.
    split; [apply Hweak; assumption |].
    intros H0 Hlt Hfull. apply Hstrict; assumption.
  - intros t Q_in dt1 dt2 HA HH HV Hq Hd.
    assert (Hpos : 0 < TankValveSim.V_max t)
      by (apply positive_geometry; assumption).
    destruct (level_of_step_sim t dt1 Q_in 0 Hpos) as [l1 [E1 R1]].
    destruct (level_of_step_sim t dt2 Q_in 0 Hpos) as [l2 [E2 R2]].
    exists l1, l2. split; [exact E1 | split; [exact E2 |]].
    rewrite R1, R2. unfold TankValveSim.step. cbn [snd]. rewrite HV.
    split; [apply Hweak; assumption |].
    intros H0 Hlt Hfull. apply Hstrict; assumption.
Qed.

Lemma filling_level_monotone_in_dt_witness :
  (0 < StreamlitTankValve.A (StreamlitTankValve.Tank_init 1.2 1)
   /\ 0 < StreamlitTankValve.H_max (StreamlitTankValve.Tank_init 1.2 1)
   /\ 0 < 0.8 /\ 0.05 <= 0.1)
  /\ exists l1 l2,
       StreamlitTankValve.level (StreamlitTankValve.Tank_init 1.2 1)
         (StreamlitTankValve.step (StreamlitTankValve.Tank_init 1.2 1)
            0 0.05 0.8 0) = Some l1
       /\ StreamlitTankValve.level (StreamlitTankValve.Tank_init 1.2 1)
            (StreamlitTankValve.step (StreamlitTankValve.Tank_init 1.2 1)
               0 0.1 0.8 0) = Some l2
       /\ l1 * StreamlitTankValve.V_max (StreamlitTankValve.Tank_init 1.2 1)
          <= l2 * StreamlitTankValve.V_max (StreamlitTankValve.Tank_init 1.2 1).
Proof.
  assert (HA : 0 < StreamlitTankValve.A (StreamlitTankValve.Tank_init 1.2 1))
    by reflexivity.
  assert (HH : 0 < StreamlitTankValve.H_max
                     (StreamlitTankValve.Tank_init 1.2 1))
    by reflexivity.
  assert (Hq : 0 < 0.8) by reflexivity.
  assert (Hd : 0.05 <= 0.1) by q_closed.
  split; [repeat split; assumption |].
  destruct (proj1 filling_level_monotone_in_dt
              (StreamlitTankValve.Tank_init 1.2 1) 0.8 0.05 0.1 HA HH Hq Hd)
    as [l1 [l2 [E1 [E2 [Hle _]]]]].
  exists l1, l2. repeat split; assumption.
Defined.

(** The readouts of the two fills above, computed: 4/120 and 8/120 of the
    tank, that is volumes 0.04 and 0.08. *)
Example filling_level_values :
  StreamlitTankValve.step (StreamlitTankValve.Tank_init 1.2 1) 0 0.05 0.8 0
    == 0.04
  /\ StreamlitTankValve.step (StreamlitTankValve.Tank_init 1.2 1) 0 0.1 0.8 0
     == 0.08
  /\ StreamlitTankValve.step (StreamlitTankValve.Tank_init 1.2 1) 0 2 0.8 0
     == 1.2
  /\ StreamlitTankValve.step (StreamlitTankValve.Tank_init 1.2 1) 0 3 0.8 0
     == 1.2.
Proof. repeat split; vm_compute; reflexivity. Qed.

(** Three steps of one second on the default tank (capacity 1.2): filling
    from empty at 0.8 in and 0.35 out gives 0.45, that is a level of 37.5%;
    draining 1.1 at 0.35 out gives 0.75; filling 1.19999 at 1.5 in stops at
    1.2 and raises the overflow flag. *)
Example step_scenarios :
  let tank := StreamlitTankValve.Tank_init 1.2 1 in
  StreamlitTankValve.step tank 0 1 0.8 0.35 == 0.45
  /\ (exists l,
         StreamlitTankValve.level tank
           (StreamlitTankValve.step tank 0 1 0.8 0.35) = Some l
         /\ l * 100 == 37.5)
  /\ StreamlitTankValve.step tank 1.1 1 0 0.35 == 0.75
  /\ StreamlitTankValve.step tank 1.19999 1 1.5 0 == 1.2
  /\ StreamlitTankValve.is_overflow tank
       (StreamlitTankValve.step tank 1.19999 1 1.5 0) = true.
Proof.
  cbv zeta.
  split; [reflexivity |].
  split; [eexists; split; [reflexivity | vm_compute; reflexivity] |].
  repeat split; vm_compute; reflexivity.
Qed.

(** ** The overflow flag *)

(** C8. [is_overflow] is true exactly when the volume is at least
    [V_max - 1e-6] (written 0.000001 here); it is false one hundredth below
    the capacity, in particular at 1.2 - 0.01 for a tank of capacity 1.2. *)
Theorem is_overflow_threshold :
  (forall (t : StreamlitTankValve.Tank) (v : Q),
      StreamlitTankValve.is_overflow t v = true
      <-> StreamlitTankValve.V_max t - 0.000001 <= v)
  /\ (forall t : StreamlitTankValve.Tank,
         StreamlitTankValve.is_overflow t (StreamlitTankValve.V_max t - 0.01)
         = false)
  /\ StreamlitTankValve.V_max (StreamlitTankValve.Tank_init 1.2 1) == 1.2
  /\ StreamlitTankValve.is_overflow (StreamlitTankValve.Tank_init 1.2 1)
       (1.2 - 0.01) = false
  /\ (forall t : TankValveSim.Tank,
         TankValveSim.is_overflow t = true
         <-> TankValveSim.V_max t - 0.000001 <= TankValveSim.V t)
  /\ (forall t : TankValveSim.Tank,
         TankValveSim.V t == TankValveSim.V_max t - 0.01 ->
         TankValveSim.is_overflow t = false)
  /\ TankValveSim.is_overflow
       (TankValveSim.set_V (TankValveSim.Tank_init 1.2 1) (1.2 - 0.01))
     = false.
Proof.
  assert (Hbelow : forall vmax v, v == vmax - 0.01 ->
             Qle_bool (vmax - 0.000001) v = false).
  { intros vmax v Hv. destruct (Qle_bool (vmax - 0.000001) v) eqn:E; [| reflexivity].
    apply Qle_bool_iff in E. lra. }
  repeat split.
  - apply Qle_bool_iff.
  - apply Qle_bool_iff.
  - intros t. apply Hbelow. reflexivity.
  - apply Qle_bool_iff.
  - apply Qle_bool_iff.
  - intros t Hv. apply Hbelow. exact Hv.
Qed.

Lemma is_overflow_threshold_witness :
  (StreamlitTankValve.V_max (StreamlitTankValve.Tank_init 1.2 1) - 0.000001
   <= 1.2)
  /\ StreamlitTankValve.is_overflow (StreamlitTankValve.Tank_init 1.2 1) 1.2
     = true.
Proof.
  assert (H : StreamlitTankValve.V_max (StreamlitTankValve.Tank_init 1.2 1)
              - 0.000001 <= 1.2) by q_closed.
  split; [exact H |].
  exact (proj2 (proj1 is_overflow_threshold
                  (StreamlitTankValve.Tank_init 1.2 1) 1.2) H).
Defined.

(** ** The history buffer *)

Section History.

Context {X : Type}.

Lemma pop0_skipn (l : list X) : pop0 l = skipn 1 l.
Proof. destruct l; reflexivity. Qed.

Lemma skipn_within_app (n : nat) (l1 l2 : list X) :
  (n <= length l1)%nat -> skipn n l1 ++ l2 = skipn n (l1 ++ l2).
Proof.
  intros Hn. rewrite skipn_app.
  replace (n - length l1)%nat with 0%nat by lia. reflexivity.
Qed.

Lemma record_history_length (h : list X) (s : X) :
  (length h <= 100)%nat -> (length (record_history h s) <= 100)%nat.
Proof.
  intros Hh. unfold record_history.
  destruct (100 <? length (h ++ [s]))%nat eqn:E.
  - rewrite pop0_skipn, length_skipn, length_app. simpl. lia.
  - apply Nat.ltb_ge in E. exact E.
Qed.

Lemma record_all_snoc (h ss : list X) (s : X) :
  record_all h (ss ++ [s]) = record_history (record_all h ss) s.
Proof. unfold record_all. rewrite fold_left_app. reflexivity. Qed.

(** Appending one by one from the empty buffer keeps the last 100. *)
Lemma record_all_last_100 (ss : list X) :
  record_all [] ss = skipn (length ss - 100) ss.
Proof.
  induction ss as [| s ss IH] using rev_ind.
  - reflexivity.
  - rewrite record_all_snoc, IH. unfold record_history.
    rewrite length_app, length_skipn, length_app. cbn [length].
    destruct (100 <? length ss - (length ss - 100) + 1)%nat eqn:E.
    + apply Nat.ltb_lt in E.
      rewrite pop0_skipn.
      rewrite (skipn_within_app (length ss - 100) ss [s]) by lia.
      rewrite skipn_skipn. f_equal. lia.
    + apply Nat.ltb_ge in E.
      replace (length ss - 100)%nat with 0%nat by lia.
      replace (length ss + 1 - 100)%nat with 0%nat by lia.
      reflexivity.
Qed.

End History.

Lemma sim_update_history_length (now wall : Q)
    (st : TankValveSim.SessionState) :
  (length (TankValveSim.history st) <= 100)%nat ->
  (length (TankValveSim.history (TankValveSim.simulation_update now wall st))
   <= 100)%nat.
Proof.
  intros Hlen. unfold TankValveSim.simulation_update.
  destruct (TankValveSim.paused st); cbn [negb]; [exact Hlen |].
  cbn [TankValveSim.set_history TankValveSim.history
       TankValveSim.set_last_update TankValveSim.set_tank].
  apply record_history_length. exact Hlen.
Qed.

Lemma streamlit_update_history_length (now wall : Q)
    (tank : StreamlitTankValve.Tank) (st : StreamlitTankValve.SessionState) :
  (length (StreamlitTankValve.history st) <= 100)%nat ->
  (length (StreamlitTankValve.history
             (snd (StreamlitTankValve.simulation_update now wall tank st)))
   <= 100)%nat.
Proof.
  intros Hlen. unfold StreamlitTankValve.simulation_update.
  destruct (StreamlitTankValve.paused st); cbn [negb snd]; [exact Hlen |].
  cbn [StreamlitTankValve.set_history StreamlitTankValve.history
       StreamlitTankValve.set_last_update StreamlitTankValve.set_tank_volume].
  apply record_history_length. exact Hlen.
Qed.

(** C4. The history buffer never holds more than 100 samples: whatever
    samples are appended to the empty buffer, it holds the last 100 of them
    in the order of their insertion; after 101 appends the sample appended
    first, and only that one, is gone.  An update of either script keeps a
    buffer of at most 100 samples at most 100 long. *)
Theorem history_bounded_fifo :
  (forall ss : list HistorySample, (length (record_all [] ss) <= 100)%nat)
  /\ (forall ss : list HistorySample,
         record_all [] ss = skipn (length ss - 100) ss)
  /\ (forall (first : HistorySample) (rest : list HistorySample),
         length rest = 100%nat -> record_all [] (first :: rest) = rest)
  /\ (forall (now wall : Q) (st : TankValveSim.SessionState),
         (length (TankValveSim.history st) <= 100)%nat ->
         (length (TankValveSim.history
                    (TankValveSim.simulation_update now wall st))
          <= 100)%nat)
  /\ (forall (now wall : Q) (st : StreamlitTankValve.SessionState),
         (length (StreamlitTankValve.history st) <= 100)%nat ->
         (length (StreamlitTankValve.history
                    (snd (StreamlitTankValve.run_update now wall st)))
          <= 100)%nat).
Proof.
  split; [| split; [| split; [| split]]].
  - intros ss. rewrite record_all_last_100, length_skipn. lia.
  - apply record_all_last_100.
  - intros first rest Hlen. rewrite record_all_last_100.
    cbn [length]. rewrite Hlen. reflexivity.
  - apply sim_update_history_length.
  - intros now wall st. apply streamlit_update_history_length.
Qed.

Lemma history_bounded_fifo_witness :
  length hundred_samples = 100%nat
  /\ record_all [] (mkSample 0 (Some 0) 0 0.35 :: hundred_samples)
     = hundred_samples.
Proof.
  assert (Hlen : length hundred_samples = 100%nat) by reflexivity.
  split; [exact Hlen |].
  exact (proj1 (proj2 (proj2 history_bounded_fifo))
           (mkSample 0 (Some 0) 0 0.35) hundred_samples Hlen).
Defined.

(** ** Reset *)

(** C5. Whatever the session state, paused or running, the Reset handler
    leaves the volume at 0, the inlet closed and the history empty (and the
    pause flag as it was). *)
Theorem reset_clears_volume_inlet_history :
  (forall st : StreamlitTankValve.SessionState,
      StreamlitTankValve.tank_volume (StreamlitTankValve.reset st) = 0
      /\ StreamlitTankValve.inlet_open (StreamlitTankValve.reset st) = false
      /\ StreamlitTankValve.history (StreamlitTankValve.reset st) = []
      /\ StreamlitTankValve.paused (StreamlitTankValve.reset st)
         = StreamlitTankValve.paused st)
  /\
  (forall st : TankValveSim.SessionState,
      TankValveSim.V (TankValveSim.tank (TankValveSim.reset st)) = 0
      /\ TankValveSim.inlet_open (TankValveSim.reset st) = false
      /\ TankValveSim.history (TankValveSim.reset st) = []
      /\ TankValveSim.paused (TankValveSim.reset st)
         = TankValveSim.paused st).
Proof.
  split; intros st; repeat split.
Qed.

(** ** The valve modal and its five-second timeout *)

Lemma Qlt_bool_true (a b : Q) : a < b -> Qlt_bool a b = true.
Proof.
  intros Hab. unfold Qlt_bool.
  destruct (Qle_bool b a) eqn:E; [| reflexivity].
  apply Qle_bool_iff in E. lra.
Qed.

Lemma Qlt_bool_false (a b : Q) : b <= a -> Qlt_bool a b = false.
Proof.
  intros Hba. unfold Qlt_bool.
  apply Qle_bool_iff in Hba. rewrite Hba. reflexivity.
Qed.

Lemma truthy_nonzero (t : Q) : ~ t == 0 -> truthy (Some t) = true.
Proof.
  intros Ht. unfold truthy.
  destruct (Qeq_bool t 0) eqn:E; [| reflexivity].
  apply Qeq_bool_iff in E. contradiction.
Qed.

(** Within five seconds of the opening the check changes nothing. *)
Lemma modal_check_before_timeout (now t0 : Q) (st : TankValveSim.SessionState) :
  TankValveSim.modal_opened_at st = Some t0 ->
  now - t0 <= 5 ->
  TankValveSim.modal_timeout_check now st = st.
Proof.
  intros Hat Hearly. unfold TankValveSim.modal_timeout_check.
  destruct (TankValveSim.show_valve_modal st); [| reflexivity].
  rewrite Hat. rewrite (Qlt_bool_false 5 (now - t0)) by exact Hearly.
  rewrite andb_false_r. reflexivity.
Qed.

Lemma modal_ticks_before_timeout (t0 : Q) (ticks : list Q)
    (st : TankValveSim.SessionState) :
  TankValveSim.modal_opened_at st = Some t0 ->
  Forall (fun now => now - t0 <= 5) ticks ->
  TankValveSim.modal_ticks ticks st = st.
Proof.
  intros Hat Hall. unfold TankValveSim.modal_ticks.
  induction Hall as [| now ticks Hnow _ IH]; [reflexivity |].
  cbn [fold_left].
  rewrite (modal_check_before_timeout now t0 st Hat Hnow). exact IH.
Qed.

(** Later than five seconds after an opening at a nonzero clock value the
    check hides the modal. *)
Lemma modal_check_after_timeout (now t0 : Q) (st : TankValveSim.SessionState) :
  TankValveSim.show_valve_modal st = true ->
  TankValveSim.modal_opened_at st = Some t0 ->
  ~ t0 == 0 ->
  5 < now - t0 ->
  TankValveSim.show_valve_modal (TankValveSim.modal_timeout_check now st)
  = false.
Proof.
  intros Hshow Hat Hnz Hlate. unfold TankValveSim.modal_timeout_check.
  rewrite Hshow, Hat.
  rewrite (truthy_nonzero t0 Hnz), (Qlt_bool_true 5 (now - t0) Hlate).
  reflexivity.
Qed.

Lemma Forall_within (t0 bound bound' : Q) (ticks : list Q) :
  bound <= bound' ->
  Forall (fun now => now - t0 <= bound) ticks ->
  Forall (fun now => now - t0 <= bound') ticks.
Proof.
  intros Hb Hall. eapply Forall_impl; [| exact Hall].
  cbn beta. intros now Hnow. lra.
Qed.

(** Why the closing half of C9 speaks of a stamp that is not 0: the check
    [modal_opened_at and ...] guards against the unset stamp [None] by truth
    value, and so also reads the number [0.0] as unset.  [time.time()]
    counts the seconds since 1970 and does not return it. *)
Lemma modal_opened_at_zero_never_times_out :
  5 < 6 - 0
  /\ TankValveSim.show_valve_modal
       (TankValveSim.modal_ticks [6]
          (TankValveSim.open_valve_control 0 (TankValveSim.initial_state 0)))
     = true.
Proof. split; reflexivity. Qed.

(** C9. After the modal is opened at clock value [t0], it is still shown
    after any reruns whose checks happen at most 4.9 s (indeed at most 5 s)
    after [t0]; the first rerun whose check happens more than 5 s after
    [t0] hides it, no button being pressed.  [t0] is a reading of
    [time.time()], the seconds since 1970, hence not 0. *)
Theorem modal_auto_close_after_5s :
  forall (st : TankValveSim.SessionState) (t0 : Q),
    (forall ticks : list Q,
        Forall (fun now => now - t0 <= 4.9) ticks ->
        TankValveSim.show_valve_modal
          (TankValveSim.modal_ticks ticks
             (TankValveSim.open_valve_control t0 st)) = true)
    /\ (forall ticks : list Q,
           Forall (fun now => now - t0 <= 5) ticks ->
           TankValveSim.show_valve_modal
             (TankValveSim.modal_ticks ticks
                (TankValveSim.open_valve_control t0 st)) = true)
    /\ (~ t0 == 0 ->
        forall (ticks : list Q) (now : Q),
          Forall (fun earlier => earlier - t0 <= 5) ticks ->
          5 < now - t0 ->
          TankValveSim.show_valve_modal
            (TankValveSim.modal_ticks (ticks ++ [now])
               (TankValveSim.open_valve_control t0 st)) = false).
Proof.
  intros st t0.
  assert (Hat : TankValveSim.modal_opened_at
                  (TankValveSim.open_valve_control t0 st) = Some t0)
    by reflexivity.
  assert (Hshow : TankValveSim.show_valve_modal
                    (TankValveSim.open_valve_control t0 st) = true)
    by reflexivity.
  split; [| split].
  - intros ticks Hall.
    rewrite (modal_ticks_before_timeout t0 ticks _ Hat); [exact Hshow |].
    apply (Forall_within t0 4.9 5); [lra | exact Hall].
  - intros ticks Hall.
    rewrite (modal_ticks_before_timeout t0 ticks _ Hat Hall). exact Hshow.
  - intros Hnz ticks now Hall Hlate.
    unfold TankValveSim.modal_ticks. rewrite fold_left_app.
    fold (TankValveSim.modal_ticks ticks
            (TankValveSim.open_valve_control t0 st)).
    rewrite (modal_ticks_before_timeout t0 ticks _ Hat Hall).
    cbn [fold_left].
    apply (modal_check_after_timeout now t0); assumption.
Qed.

Lemma modal_auto_close_after_5s_witness :
  (~ 100 == 0
   /\ Forall (fun earlier => earlier - 100 <= 5) [100.05; 104.9; 105]
   /\ 5 < 105.1 - 100)
  /\ TankValveSim.show_valve_modal
       (TankValveSim.modal_ticks ([100.05; 104.9; 105] ++ [105.1])
          (TankValveSim.open_valve_control 100
             (TankValveSim.initial_state 99))) = false.
Proof.
  assert (Hnz : ~ 100 == 0) by q_closed.
  assert (Hall : Forall (fun earlier => earlier - 100 <= 5)
                   [100.05; 104.9; 105])
    by (repeat constructor; q_closed).
  assert (Hlate : 5 < 105.1 - 100) by reflexivity.
  split; [repeat split; assumption |].
  exact (proj2 (proj2 (modal_auto_close_after_5s
                         (TankValveSim.initial_state 99) 100))
           Hnz [100.05; 104.9; 105] 105.1 Hall Hlate).
Defined.

(** ** The time step of an update *)

Lemma tick_dt_spec (d : Q) :
  Qmin d 0.1 <= 0.1
  /\ (0 <= d -> Qmin d 0.1 == np_clip d 0 0.1)
  /\ (d < 0 -> Qmin d 0.1 == d).
Proof.
  split; [apply Q.le_min_r | split].
  - intros Hd. unfold np_clip. rewrite (Q.max_l d 0) by exact Hd. reflexivity.
  - intros Hd. apply Q.min_l. lra.
Qed.

(** C2. The code breaks the claim when the clock goes backwards: only the
    upper half of the clamp is there ([dt = min(dt, 0.1)], "clamp to prevent
    huge jumps").  With the last update stamped 1 and the clock reading 0
    the time step is -1, where the claim has 0, and it reaches the
    integration: a tank holding 0.5 with the inlet closed and the default
    outflow 0.35 ends the update holding 0.85 instead of 0.5; with the clock
    set back one hour an empty tank with the inlet closed is full after one
    update. *)
Lemma negative_dt_reaches_step :
  StreamlitTankValve.tick_dt 0 1 == -1
  /\ ~ StreamlitTankValve.tick_dt 0 1 == np_clip (0 - 1) 0 0.1
  /\ TankValveSim.tick_dt 0 1 == -1
  /\ StreamlitTankValve.paused
       (StreamlitTankValve.set_tank_volume
          (StreamlitTankValve.initial_state 1) 0.5) = false
  /\ StreamlitTankValve.tank_volume
       (snd (StreamlitTankValve.run_update 0 0
               (StreamlitTankValve.set_tank_volume
                  (StreamlitTankValve.initial_state 1) 0.5)))
     == 0.85
  /\ StreamlitTankValve.step
       (StreamlitTankValve.create_tank (StreamlitTankValve.initial_state 1))
       0.5 (np_clip (0 - 1) 0 0.1) 0 0.35 == 0.5
  /\ StreamlitTankValve.tank_volume
       (snd (StreamlitTankValve.run_update 0 0
               (StreamlitTankValve.initial_state 3600)))
     == 1.2
  /\ TankValveSim.V
       (TankValveSim.tank
          (TankValveSim.simulation_update 0 0
             (TankValveSim.initial_state 3600)))
     == 1.2.
Proof.
  split; [reflexivity |].
  split; [vm_compute; discriminate |].
  split; [reflexivity |].
  split; [reflexivity |].
  split; [reflexivity |].
  split; [reflexivity |].
  split; reflexivity.
Qed.

(** The time step as the update block computes it,
    [min(now - last_update, 0.1)]: it never exceeds 0.1, it is
    [clamp(now - last_update, 0, 0.1)] whenever the clock has not gone back,
    and it is the [dt] handed to [Tank.step]; a negative difference passes
    the one-sided clamp unchanged. *)
Theorem update_dt_is_upper_clamped :
  (forall now last : Q,
      StreamlitTankValve.tick_dt now last = Qmin (now - last) 0.1
      /\ TankValveSim.tick_dt now last = Qmin (now - last) 0.1
      /\ Qmin (now - last) 0.1 <= 0.1
      /\ (0 <= now - last ->
          Qmin (now - last) 0.1 == np_clip (now - last) 0 0.1)
      /\ (now - last < 0 -> Qmin (now - last) 0.1 == now - last))
  /\
  (forall (now wall : Q) (st : StreamlitTankValve.SessionState),
      StreamlitTankValve.paused st = false ->
      StreamlitTankValve.tank_volume
        (snd (StreamlitTankValve.run_update now wall st))
      = StreamlitTankValve.step (StreamlitTankValve.create_tank st)
          (StreamlitTankValve.tank_volume st)
          (StreamlitTankValve.tick_dt now (StreamlitTankValve.last_update st))
          (if StreamlitTankValve.inlet_open st
           then StreamlitTankValve.get
                  (StreamlitTankValve.inlet_flow_value st) 0.8
           else 0)
          (StreamlitTankValve.get
             (StreamlitTankValve.outlet_flow_value st) 0.35))
  /\
  (forall (now wall : Q) (st : TankValveSim.SessionState),
      TankValveSim.paused st = false ->
      TankValveSim.tank (TankValveSim.simulation_update now wall st)
      = fst (TankValveSim.step (TankValveSim.tank st)
               (TankValveSim.tick_dt now (TankValveSim.last_update st))
               (if TankValveSim.inlet_open st
                then TankValveSim.inlet_flow st else 0)
               (TankValveSim.outlet_flow st))).
Proof.
  split; [| split].
  - intros now last.
    split; [reflexivity | split; [reflexivity |]].
    apply tick_dt_spec.
  - intros now wall st Hrun.
    unfold StreamlitTankValve.run_update, StreamlitTankValve.simulation_update.
    rewrite Hrun. reflexivity.
  - intros now wall st Hrun.
    unfold TankValveSim.simulation_update.
    rewrite Hrun. reflexivity.
Qed.

Lemma update_dt_is_upper_clamped_witness :
  (0 <= 100.25 - 100 /\ 100 - 100.25 < 0
   /\ StreamlitTankValve.paused (StreamlitTankValve.initial_state 100) = false)
  /\ Qmin (100.25 - 100) 0.1 == np_clip (100.25 - 100) 0 0.1
  /\ Qmin (100 - 100.25) 0.1 == 100 - 100.25
  /\ StreamlitTankValve.tank_volume
       (snd (StreamlitTankValve.run_update 100.25 0
               (StreamlitTankValve.initial_state 100)))
     = StreamlitTankValve.step
         (StreamlitTankValve.create_tank (StreamlitTankValve.initial_state 100))
         0 (StreamlitTankValve.tick_dt 100.25 100) 0 0.35.
Proof.
  assert (Hfwd : 0 <= 100.25 - 100) by q_closed.
  assert (Hback : 100 - 100.25 < 0) by reflexivity.
  assert (Hrun : StreamlitTankValve.paused
                   (StreamlitTankValve.initial_state 100) = false)
    by reflexivity.
  split; [repeat split; assumption |].
  split; [| split].
  - exact (proj1 (proj2 (proj2 (proj2
             (proj1 update_dt_is_upper_clamped 100.25 100)))) Hfwd).
  - exact (proj2 (proj2 (proj2 (proj2
             (proj1 update_dt_is_upper_clamped 100 100.25)))) Hback).
  - exact (proj1 (proj2 update_dt_is_upper_clamped)
             100.25 0 (StreamlitTankValve.initial_state 100) Hrun).
Defined.

(** ** Tank construction *)

(** C3, as stated, fails: a tank of zero area, and one of negative height,
    are constructed without any error; the zero capacity only shows up
    later, as a division by zero in [level]. *)
Lemma degenerate_tank_is_constructed :
  StreamlitTankValve.Tank_new 0 1 = Some (StreamlitTankValve.Tank_init 0 1)
  /\ StreamlitTankValve.Tank_new 1.2 (-1)
     = Some (StreamlitTankValve.Tank_init 1.2 (-1))
  /\ TankValveSim.Tank_new 0 1 = Some (TankValveSim.Tank_init 0 1)
  /\ ~ (forall (area height : Q) (t : StreamlitTankValve.Tank),
           StreamlitTankValve.Tank_new area height = Some t ->
           0 < area /\ 0 < height)
  /\ StreamlitTankValve.level (StreamlitTankValve.Tank_init 0 1) 0 = None.
Proof.
  split; [reflexivity |].
  split; [reflexivity |].
  split; [reflexivity |].
  split; [| reflexivity].
  intros Hchecked.
  destruct (Hchecked 0 1 (StreamlitTankValve.Tank_init 0 1) eq_refl)
    as [Harea _].
  revert Harea. vm_compute. discriminate.
Qed.

(** C3 (amended). Tank construction checks nothing: for every area and
    height, zero and negative ones included, it returns a tank holding
    exactly these values (and, in [TankValveSim.py], volume 0). *)
Theorem tank_construction_is_unchecked :
  (forall area height : Q,
      StreamlitTankValve.Tank_new area height
      = Some {| StreamlitTankValve.A := area;
                StreamlitTankValve.H_max := height |})
  /\
  (forall area height : Q,
      TankValveSim.Tank_new area height
      = Some {| TankValveSim.A := area;
                TankValveSim.H_max := height;
                TankValveSim.V := 0 |}).
Proof. split; reflexivity. Qed.

(** ** What an update leaves alone *)

(** C10. An update of [TankValveSim.py] changes at most the tank's volume,
    [last_update] and the history: the inlet flag, the pause flag, the valve
    position and valve object, the flow sliders, the tank's area and height
    and the modal state are as before.  An update of
    [streamlit-tank-valve.py] changes at most [tank_volume], [last_update]
    and the history: the inlet flag, the pause flag, the valve position, the
    stored flow values, the stored area and the tank object of the run are
    as before. *)
Theorem update_frame :
  (forall (now wall : Q) (st : TankValveSim.SessionState),
      let st' := TankValveSim.simulation_update now wall st in
      TankValveSim.inlet_open st' = TankValveSim.inlet_open st
      /\ TankValveSim.paused st' = TankValveSim.paused st
      /\ TankValveSim.valve_position st' = TankValveSim.valve_position st
      /\ TankValveSim.valve st' = TankValveSim.valve st
      /\ TankValveSim.inlet_flow st' = TankValveSim.inlet_flow st
      /\ TankValveSim.outlet_flow st' = TankValveSim.outlet_flow st
      /\ TankValveSim.A (TankValveSim.tank st')
         = TankValveSim.A (TankValveSim.tank st)
      /\ TankValveSim.H_max (TankValveSim.tank st')
         = TankValveSim.H_max (TankValveSim.tank st)
      /\ TankValveSim.tank_area st' = TankValveSim.tank_area st
      /\ TankValveSim.show_valve_modal st' = TankValveSim.show_valve_modal st
      /\ TankValveSim.modal_opened_at st' = TankValveSim.modal_opened_at st
      /\ TankValveSim.tank_volume st' = TankValveSim.tank_volume st)
  /\
  (forall (now wall : Q) (st : StreamlitTankValve.SessionState),
      let tank' := fst (StreamlitTankValve.run_update now wall st) in
      let st' := snd (StreamlitTankValve.run_update now wall st) in
      StreamlitTankValve.inlet_open st' = StreamlitTankValve.inlet_open st
      /\ StreamlitTankValve.paused st' = StreamlitTankValve.paused st
      /\ StreamlitTankValve.valve_position st'
         = StreamlitTankValve.valve_position st
      /\ StreamlitTankValve.inlet_flow_value st'
         = StreamlitTankValve.inlet_flow_value st
      /\ StreamlitTankValve.outlet_flow_value st'
         = StreamlitTankValve.outlet_flow_value st
      /\ StreamlitTankValve.tank_area st' = StreamlitTankValve.tank_area st
      /\ tank' = StreamlitTankValve.create_tank st
      /\ StreamlitTankValve.A tank' = StreamlitTankValve.tank_area st
      /\ StreamlitTankValve.H_max tank' = 1).
Proof.
  split.
  - intros now wall st. cbv zeta.
    unfold TankValveSim.simulation_update.
    destruct (TankValveSim.paused st) eqn:Hp; cbn [negb];
      repeat split; exact Hp.
  - intros now wall st. cbv zeta.
    unfold StreamlitTankValve.run_update, StreamlitTankValve.simulation_update.
    destruct (StreamlitTankValve.paused st) eqn:Hp; cbn [negb fst snd];
      repeat split; exact Hp.
Qed.

(** * Further properties of the code *)

(** ** Arithmetic of the clamp *)

(** Names every innermost [Qmin]/[Qmax] of the goal, keeping its defining
    case split as a hypothesis, so that linear arithmetic can finish. *)
Ltac no_minmax x :=
  lazymatch x with
  | context [Qmin _ _] => fail
  | context [Qmax _ _] => fail
  | _ => idtac
  end.

Ltac name_minmax :=
  repeat match goal with
  | |- context [Qmax ?x ?y] =>
      no_minmax x; no_minmax y;
      let H := fresh "Hmax" in
      pose proof (Q.max_spec x y) as H;
      generalize dependent (Qmax x y); intros ? H
  | |- context [Qmin ?x ?y] =>
      no_minmax x; no_minmax y;
      let H := fresh "Hmin" in
      pose proof (Q.min_spec x y) as H;
      generalize dependent (Qmin x y); intros ? H
  end.

Ltac split_cases :=
  repeat match goal with
  | H : _ \/ _ |- _ => destruct H
  | H : _ /\ _ |- _ => destruct H
  end.

Ltac clip_arith := unfold np_clip; name_minmax; split_cases; lra.

Lemma np_clip_at_max (a lo hi : Q) :
  lo <= hi -> hi <= a -> np_clip a lo hi == hi.
Proof. intros Hlh Ha. clip_arith. Qed.

Lemma np_clip_at_min (a lo hi : Q) :
  lo <= hi -> a <= lo -> np_clip a lo hi == lo.
Proof. intros Hlh Ha. clip_arith. Qed.

(** ** The integration step, beyond the claims *)

(** X1. Whatever the stored volume, the flows and the time step (negative
    ones included), a step of a tank whose capacity is not negative returns
    a volume between 0 and the capacity; with a negative capacity it returns
    the capacity. *)
Theorem step_restores_bounds :
  (forall (t : StreamlitTankValve.Tank) (volume dt Q_in Q_out : Q),
      (0 <= StreamlitTankValve.V_max t ->
       0 <= StreamlitTankValve.step t volume dt Q_in Q_out
       /\ StreamlitTankValve.step t volume dt Q_in Q_out
          <= StreamlitTankValve.V_max t)
      /\ (StreamlitTankValve.V_max t < 0 ->
          StreamlitTankValve.step t volume dt Q_in Q_out
          == StreamlitTankValve.V_max t))
  /\
  (forall (t : TankValveSim.Tank) (dt Q_in Q_out : Q),
      (0 <= TankValveSim.V_max t ->
       0 <= TankValveSim.V (fst (TankValveSim.step t dt Q_in Q_out))
       /\ TankValveSim.V (fst (TankValveSim.step t dt Q_in Q_out))
          <= TankValveSim.V_max t)
      /\ (TankValveSim.V_max t < 0 ->
          TankValveSim.V (fst (TankValveSim.step t dt Q_in Q_out))
          == TankValveSim.V_max t)).
Proof.
  split.
  - intros t volume dt Q_in Q_out. unfold StreamlitTankValve.step.
    split; [apply np_clip_range |].
    intros Hneg. clip_arith.
  - intros t dt Q_in Q_out. unfold TankValveSim.step.
    cbn [fst TankValveSim.set_V TankValveSim.V].
    split; [apply np_clip_range |].
    intros Hneg. clip_arith.
Qed.

Lemma step_restores_bounds_witness :
  0 <= StreamlitTankValve.V_max (StreamlitTankValve.Tank_init 0.5 1)
  /\ 0 <= StreamlitTankValve.step (StreamlitTankValve.Tank_init 0.5 1)
            3 (-1) 1.5 0
  /\ StreamlitTankValve.step (StreamlitTankValve.Tank_init 0.5 1) 3 (-1) 1.5 0
     <= StreamlitTankValve.V_max (StreamlitTankValve.Tank_init 0.5 1).
Proof.
  assert (Hcap : 0 <= StreamlitTankValve.V_max
                        (StreamlitTankValve.Tank_init 0.5 1)) by q_closed.
  split; [exact Hcap |].
  exact (proj1 (proj1 step_restores_bounds
                  (StreamlitTankValve.Tank_init 0.5 1) 3 (-1) 1.5 0) Hcap).
Defined.

(** X2. The three regimes of a step, [raw] being
    [volume + (Q_in - Q_out) * dt]: the exact mass balance when [raw] fits
    the tank, the capacity when [raw] exceeds it, 0 when [raw] is
    negative. *)
Theorem step_regimes :
  forall (t : StreamlitTankValve.Tank) (volume dt Q_in Q_out : Q),
    let raw := volume + (Q_in - Q_out) * dt in
    (0 <= raw -> raw <= StreamlitTankValve.V_max t ->
     StreamlitTankValve.step t volume dt Q_in Q_out == raw)
    /\ (0 <= StreamlitTankValve.V_max t -> StreamlitTankValve.V_max t <= raw ->
        StreamlitTankValve.step t volume dt Q_in Q_out
        == StreamlitTankValve.V_max t)
    /\ (0 <= StreamlitTankValve.V_max t -> raw <= 0 ->
        StreamlitTankValve.step t volume dt Q_in Q_out == 0).
Proof.
  intros t volume dt Q_in Q_out raw. unfold StreamlitTankValve.step.
  fold raw. split; [| split].
  - intros H0 H1. apply np_clip_inside; assumption.
  - intros Hcap Hfull. apply np_clip_at_max; assumption.
  - intros Hcap Hempty. apply np_clip_at_min; assumption.
Qed.

Lemma step_regimes_witness :
  (0 <= 0 + (0.8 - 0.35) * 1
   /\ 0 + (0.8 - 0.35) * 1
      <= StreamlitTankValve.V_max (StreamlitTankValve.Tank_init 1.2 1))
  /\ StreamlitTankValve.step (StreamlitTankValve.Tank_init 1.2 1)
       0 1 0.8 0.35 == 0 + (0.8 - 0.35) * 1.
Proof.
  assert (H0 : 0 <= 0 + (0.8 - 0.35) * 1) by q_closed.
  assert (H1 : 0 + (0.8 - 0.35) * 1
               <= StreamlitTankValve.V_max
                    (StreamlitTankValve.Tank_init 1.2 1)) by q_closed.
  split; [split; assumption |].
  exact (proj1 (step_regimes (StreamlitTankValve.Tank_init 1.2 1)
                  0 1 0.8 0.35) H0 H1).
Defined.

(** X4. When time does not run backwards ([dt >= 0]) and the volume is
    inside the tank, the sign of the net flow decides the direction: with
    [Q_in <= Q_out] (in particular with the inlet closed) the volume never
    rises, with [Q_in >= Q_out] it never falls, and with equal flows it
    stays as it is. *)
Theorem step_follows_net_flow :
  forall (t : StreamlitTankValve.Tank) (volume dt Q_in Q_out : Q),
    0 <= volume -> volume <= StreamlitTankValve.V_max t -> 0 <= dt ->
    (Q_in <= Q_out -> StreamlitTankValve.step t volume dt Q_in Q_out <= volume)
    /\ (Q_out <= Q_in ->
        volume <= StreamlitTankValve.step t volume dt Q_in Q_out)
    /\ (Q_in == Q_out ->
        StreamlitTankValve.step t volume dt Q_in Q_out == volume).
Proof.
  intros t volume dt Q_in Q_out Hv0 Hv1 Hdt.
  unfold StreamlitTankValve.step.
  split; [| split].
  - intros Hq. assert (Hd : (Q_in - Q_out) * dt <= 0) by nra.
    generalize dependent ((Q_in - Q_out) * dt). intros d Hd. clip_arith.
  - intros Hq. assert (Hd : 0 <= (Q_in - Q_out) * dt) by nra.
    generalize dependent ((Q_in - Q_out) * dt). intros d Hd. clip_arith.
  - intros Hq. assert (Hd : (Q_in - Q_out) * dt == 0) by nra.
    generalize dependent ((Q_in - Q_out) * dt). intros d Hd. clip_arith.
Qed.

Lemma step_follows_net_flow_witness :
  (0 <= 1 /\ 1 <= StreamlitTankValve.V_max (StreamlitTankValve.Tank_init 1.2 1)
   /\ 0 <= 0.1 /\ 0 <= 0.35)
  /\ StreamlitTankValve.step (StreamlitTankValve.Tank_init 1.2 1)
       1 0.1 0 0.35 <= 1.
Proof.
  assert (H0 : 0 <= 1) by q_closed.
  assert (H1 : 1 <= StreamlitTankValve.V_max
                      (StreamlitTankValve.Tank_init 1.2 1)) by q_closed.
  assert (H2 : 0 <= 0.1) by q_closed.
  assert (H3 : 0 <= 0.35) by q_closed.
  split; [repeat split; assumption |].
  exact (proj1 (step_follows_net_flow (StreamlitTankValve.Tank_init 1.2 1)
                  1 0.1 0 0.35 H0 H1 H2) H3).
Defined.

(** X5. A step is monotone in its data: a larger starting volume, and for
    [dt >= 0] a larger inflow or a smaller outflow, never give a smaller
    result. *)
Theorem step_monotone :
  forall (t : StreamlitTankValve.Tank) (v1 v2 dt in1 in2 out1 out2 : Q),
    v1 <= v2 -> 0 <= dt -> in1 <= in2 -> out2 <= out1 ->
    StreamlitTankValve.step t v1 dt in1 out1
    <= StreamlitTankValve.step t v2 dt in2 out2.
Proof.
  intros t v1 v2 dt in1 in2 out1 out2 Hv Hdt Hin Hout.
  unfold StreamlitTankValve.step. apply np_clip_mono.
  assert ((in1 - out1) * dt <= (in2 - out2) * dt) by nra. lra.
Qed.

Lemma step_monotone_witness :
  (0.2 <= 0.4 /\ 0 <= 0.1 /\ 0.5 <= 0.8 /\ 0.35 <= 1.2)
  /\ StreamlitTankValve.step (StreamlitTankValve.Tank_init 1.2 1)
       0.2 0.1 0.5 1.2
     <= StreamlitTankValve.step (StreamlitTankValve.Tank_init 1.2 1)
          0.4 0.1 0.8 0.35.
Proof.
  assert (H0 : 0.2 <= 0.4) by q_closed.
  assert (H1 : 0 <= 0.1) by q_closed.
  assert (H2 : 0.5 <= 0.8) by q_closed.
  assert (H3 : 0.35 <= 1.2) by q_closed.
  split; [repeat split; assumption |].
  exact (step_monotone (StreamlitTankValve.Tank_init 1.2 1)
           0.2 0.4 0.1 0.5 0.8 1.2 0.35 H0 H1 H2 H3).
Defined.

(** ** Level and overflow readouts *)

Lemma fdiv_cases (x y : Q) :
  (y == 0 /\ fdiv x y = None) \/ (~ y == 0 /\ fdiv x y = Some (x / y)).
Proof.
  unfold fdiv. destruct (Qeq_bool y 0) eqn:E.
  - left. split; [apply Qeq_bool_iff; exact E | reflexivity].
  - right. split; [| reflexivity].
    intros Hy. apply Qeq_bool_iff in Hy. congruence.
Qed.

Lemma fraction_range (r : Q) : 0 <= Qmin 1 (Qmax 0 r) /\ Qmin 1 (Qmax 0 r) <= 1.
Proof. split; name_minmax; split_cases; lra. Qed.

(** X6. Whenever the capacity is not 0 the level readout has a value, and
    any value it has is a fraction between 0 and 1, whatever the volume
    (also one outside the tank, or a negative capacity). *)
Theorem level_within_unit_interval :
  (forall (t : StreamlitTankValve.Tank) (volume : Q),
      (~ StreamlitTankValve.V_max t == 0 ->
       exists l, StreamlitTankValve.level t volume = Some l)
      /\ (forall l, StreamlitTankValve.level t volume = Some l ->
                    0 <= l /\ l <= 1))
  /\
  (forall t : TankValveSim.Tank,
      (~ TankValveSim.V_max t == 0 ->
       exists l, TankValveSim.level t = Some l)
      /\ (forall l, TankValveSim.level t = Some l -> 0 <= l /\ l <= 1)).
Proof.
  assert (Hcore : forall x y,
             (~ y == 0 ->
              exists l, match fdiv x y with
                        | Some r => Some (Qmin 1 (Qmax 0 r))
                        | None => None
                        end = Some l)
             /\ (forall l, match fdiv x y with
                           | Some r => Some (Qmin 1 (Qmax 0 r))
                           | None => None
                           end = Some l -> 0 <= l /\ l <= 1)).
  { intros x y. destruct (fdiv_cases x y) as [[Hy E] | [Hy E]]; rewrite E.
    - split; [intros Hz; contradiction | intros l Hl; discriminate Hl].
    - split; [intros _; eexists; reflexivity |].
      intros l Hl. injection Hl as <-. apply fraction_range. }
  split.
  - intros t volume. apply Hcore.
  - intros t. apply Hcore.
Qed.

Lemma level_within_unit_interval_witness :
  (~ StreamlitTankValve.V_max (StreamlitTankValve.Tank_init 1.2 1) == 0
   /\ StreamlitTankValve.level (StreamlitTankValve.Tank_init 1.2 1) 2 = Some 1)
  /\ (exists l,
         StreamlitTankValve.level (StreamlitTankValve.Tank_init 1.2 1) 2
         = Some l)
  /\ 0 <= 1 /\ 1 <= 1.
Proof.
  assert (Hcap : ~ StreamlitTankValve.V_max
                     (StreamlitTankValve.Tank_init 1.2 1) == 0) by q_closed.
  assert (Hl : StreamlitTankValve.level (StreamlitTankValve.Tank_init 1.2 1) 2
               = Some 1) by reflexivity.
  split; [split; assumption |].
  split.
  - exact (proj1 (proj1 level_within_unit_interval
                    (StreamlitTankValve.Tank_init 1.2 1) 2) Hcap).
  - exact (proj2 (proj1 level_within_unit_interval
                    (StreamlitTankValve.Tank_init 1.2 1) 2) 1 Hl).
Defined.

(** X7. For a tank whose capacity exceeds 1e-6, the overflow flag is raised
    on the result of a step exactly when the unclamped volume
    [volume + (Q_in - Q_out) * dt] reaches the capacity minus 1e-6. *)
Theorem overflow_after_step :
  forall (t : StreamlitTankValve.Tank) (volume dt Q_in Q_out : Q),
    0.000001 < StreamlitTankValve.V_max t ->
    (StreamlitTankValve.is_overflow t
       (StreamlitTankValve.step t volume dt Q_in Q_out) = true
     <-> StreamlitTankValve.V_max t - 0.000001
         <= volume + (Q_in - Q_out) * dt).
Proof.
  intros t volume dt Q_in Q_out Hcap.
  unfold StreamlitTankValve.is_overflow, StreamlitTankValve.step.
  rewrite Qle_bool_iff.
  generalize dependent (StreamlitTankValve.V_max t). intros hi Hcap.
  generalize (volume + (Q_in - Q_out) * dt). intros raw.
  split; intros H; revert H; clip_arith.
Qed.

Lemma overflow_after_step_witness :
  (0.000001 < StreamlitTankValve.V_max (StreamlitTankValve.Tank_init 1.2 1)
   /\ StreamlitTankValve.V_max (StreamlitTankValve.Tank_init 1.2 1) - 0.000001
      <= 1.19999 + (1.5 - 0) * 1)
  /\ StreamlitTankValve.is_overflow (StreamlitTankValve.Tank_init 1.2 1)
       (StreamlitTankValve.step (StreamlitTankValve.Tank_init 1.2 1)
          1.19999 1 1.5 0) = true.
Proof.
  assert (Hcap : 0.000001 < StreamlitTankValve.V_max
                              (StreamlitTankValve.Tank_init 1.2 1))
    by q_closed.
  assert (Hraw : StreamlitTankValve.V_max (StreamlitTankValve.Tank_init 1.2 1)
                 - 0.000001 <= 1.19999 + (1.5 - 0) * 1) by q_closed.
  split; [split; assumption |].
  exact (proj2 (overflow_after_step (StreamlitTankValve.Tank_init 1.2 1)
                  1.19999 1 1.5 0 Hcap) Hraw).
Defined.

(** X8. For a tank of positive capacity the two readouts agree up to the
    tolerance: the level reads 1 exactly when the volume has reached the
    capacity and then the overflow flag is raised; it reads 0 exactly when
    the volume is not positive; and a raised overflow flag means a level of
    at least [1 - 1e-6 / V_max]. *)
Theorem level_and_overflow_agree :
  forall (t : StreamlitTankValve.Tank) (volume : Q),
    0 < StreamlitTankValve.V_max t ->
    exists l,
      StreamlitTankValve.level t volume = Some l
      /\ (l == 1 <-> StreamlitTankValve.V_max t <= volume)
      /\ (l == 0 <-> volume <= 0)
      /\ (l == 1 -> StreamlitTankValve.is_overflow t volume = true)
      /\ (StreamlitTankValve.is_overflow t volume = true ->
          1 - 0.000001 / StreamlitTankValve.V_max t <= l).
Proof.
  intros t volume Hcap.
  unfold StreamlitTankValve.level, StreamlitTankValve.is_overflow.
  rewrite fdiv_defined by lra.
  eexists. split; [reflexivity |].
  rewrite Qle_bool_iff.
  generalize dependent (StreamlitTankValve.V_max t). intros hi Hcap.
  assert (Hr : volume / hi * hi == volume) by (field; lra).
  assert (He : 0.000001 / hi * hi == 0.000001) by (field; lra).
  assert (He0 : 0 <= 0.000001 / hi) by (apply Qle_shift_div_l; lra).
  generalize dependent (volume / hi). intros r Hr.
  generalize dependent (0.000001 / hi). intros e He He0.
  assert (Hr1 : 1 <= r <-> hi <= volume) by (split; intros; nra).
  assert (Hr0 : r <= 0 <-> volume <= 0) by (split; intros; nra).
  assert (Hre : hi - 0.000001 <= volume -> 1 - e <= r) by (intros; nra).
  destruct Hr1 as [Hr1a Hr1b]. destruct Hr0 as [Hr0a Hr0b].
  name_minmax. split_cases.
  all: repeat split; intros;
    try lra;
    try (apply Hr1a; lra); try (apply Hr0a; lra);
    try (assert (1 <= r) by (apply Hr1b; lra); lra);
    try (assert (r <= 0) by (apply Hr0b; lra); lra);
    try (assert (1 - e <= r) by (apply Hre; lra); lra);
    try (assert (hi <= volume) by (apply Hr1a; lra); lra).
Qed.

Lemma level_and_overflow_agree_witness :
  0 < StreamlitTankValve.V_max (StreamlitTankValve.Tank_init 1.2 1)
  /\ exists l,
       StreamlitTankValve.level (StreamlitTankValve.Tank_init 1.2 1) 1.2
       = Some l
       /\ (l == 1 ->
           StreamlitTankValve.is_overflow
             (StreamlitTankValve.Tank_init 1.2 1) 1.2 = true).
Proof.
  assert (Hcap : 0 < StreamlitTankValve.V_max
                       (StreamlitTankValve.Tank_init 1.2 1)) by q_closed.
  split; [exact Hcap |].
  destruct (level_and_overflow_agree
              (StreamlitTankValve.Tank_init 1.2 1) 1.2 Hcap)
    as [l [El [_ [_ [Hfull _]]]]].
  exists l. split; [exact El | exact Hfull].
Defined.

(** ** The valve object *)

(** X9. For a non-negative flow coefficient the valve's flow rate grows
    with its position, and for a position between 0 and 1 it lies between 0
    and the coefficient; a freshly built valve lets nothing through. *)
Theorem flow_rate_monotone :
  forall cv p1 p2 : Q,
    0 <= cv -> p1 <= p2 ->
    TankValveSim.flow_rate {| TankValveSim.Cv := cv;
                              TankValveSim.position := p1 |}
    <= TankValveSim.flow_rate {| TankValveSim.Cv := cv;
                                 TankValveSim.position := p2 |}
    /\ (0 <= p1 -> p2 <= 1 ->
        0 <= TankValveSim.flow_rate {| TankValveSim.Cv := cv;
                                       TankValveSim.position := p1 |}
        /\ TankValveSim.flow_rate {| TankValveSim.Cv := cv;
                                     TankValveSim.position := p2 |} <= cv)
    /\ TankValveSim.flow_rate (TankValveSim.Valve_init cv) == 0.
Proof.
  intros cv p1 p2 Hcv Hp. unfold TankValveSim.flow_rate, TankValveSim.Valve_init.
  cbn [TankValveSim.Cv TankValveSim.position].
  split; [nra | split; [intros H0 H1; split; nra | ring]].
Qed.

Lemma flow_rate_monotone_witness :
  (0 <= 0.8 /\ 0.25 <= 0.5)
  /\ TankValveSim.flow_rate {| TankValveSim.Cv := 0.8;
                               TankValveSim.position := 0.25 |}
     <= TankValveSim.flow_rate {| TankValveSim.Cv := 0.8;
                                  TankValveSim.position := 0.5 |}.
Proof.
  assert (Hcv : 0 <= 0.8) by q_closed.
  assert (Hp : 0.25 <= 0.5) by q_closed.
  split; [split; assumption |].
  exact (proj1 (flow_rate_monotone 0.8 0.25 0.5 Hcv Hp)).
Defined.

(** ** The history buffer, beyond the claims *)

Section HistoryMore.

Context {X : Type}.

Lemma pop0_app (h : list X) (s : X) : h <> [] -> pop0 (h ++ [s]) = pop0 h ++ [s].
Proof. destruct h; [congruence | reflexivity]. Qed.

Lemma record_history_cases (h : list X) (s : X) :
  record_history h s
  = (if (100 <=? length h)%nat then pop0 h else h) ++ [s].
Proof.
  unfold record_history. rewrite length_app. cbn [length].
  destruct (100 <=? length h)%nat eqn:E.
  - apply Nat.leb_le in E.
    replace (100 <? length h + 1)%nat with true
      by (symmetry; apply Nat.ltb_lt; lia).
    apply pop0_app. destruct h; [cbn in E; lia | discriminate].
  - apply Nat.leb_gt in E.
    replace (100 <? length h + 1)%nat with false
      by (symmetry; apply Nat.ltb_ge; lia).
    reflexivity.
Qed.

Lemma pop0_length (h : list X) : length (pop0 h) = (length h - 1)%nat.
Proof. destruct h; cbn; lia. Qed.

Lemma Forall_pop0 (P : X -> Prop) (h : list X) :
  Forall P h -> Forall P (pop0 h).
Proof. intros Hall. destruct Hall; [constructor | assumption]. Qed.

Lemma Forall_record_history (P : X -> Prop) (h : list X) (s : X) :
  Forall P h -> P s -> Forall P (record_history h s).
Proof.
  intros Hall Hs. rewrite record_history_cases.
  apply Forall_app. split; [| constructor; [exact Hs | constructor]].
  destruct (100 <=? length h)%nat; [apply Forall_pop0 |]; exact Hall.
Qed.

(** Appending one by one to a buffer of at most 100 keeps the last 100 of
    everything. *)
Lemma record_all_from (h ss : list X) :
  (length h <= 100)%nat ->
  record_all h ss = skipn (length (h ++ ss) - 100) (h ++ ss).
Proof.
  intros Hh. induction ss as [| s ss IH] using rev_ind.
  - rewrite app_nil_r.
    replace (length h - 100)%nat with 0%nat by lia. reflexivity.
  - rewrite record_all_snoc, IH, record_history_cases.
    rewrite length_skipn, app_assoc.
    rewrite (length_app (h ++ ss) [s]). cbn [length].
    destruct (100 <=? length (h ++ ss) - (length (h ++ ss) - 100))%nat eqn:E.
    + apply Nat.leb_le in E.
      rewrite pop0_skipn, skipn_skipn.
      rewrite (skipn_within_app _ (h ++ ss) [s]) by lia.
      f_equal. lia.
    + apply Nat.leb_gt in E.
      replace (length (h ++ ss) - 100)%nat with 0%nat by lia.
      replace (length (h ++ ss) + 1 - 100)%nat with 0%nat by lia.
      reflexivity.
Qed.

End HistoryMore.

(** X10. An append never loses the sample it adds: the buffer afterwards is
    the old one, less its oldest sample if it already held 100 or more,
    followed by the new sample.  Only one sample is ever dropped per append,
    so a buffer that held more than 100 keeps its length. *)
Theorem record_history_keeps_newest :
  forall (h : list HistorySample) (s : HistorySample),
    record_history h s
    = (if (100 <=? length h)%nat then pop0 h else h) ++ [s]
    /\ last (record_history h s) s = s
    /\ ((length h < 100)%nat ->
        length (record_history h s) = S (length h))
    /\ ((100 <= length h)%nat ->
        length (record_history h s) = length h).
Proof.
  intros h s. rewrite record_history_cases.
  split; [reflexivity | split; [apply last_last | split]].
  - intros Hlt. apply Nat.leb_gt in Hlt. rewrite Hlt.
    rewrite length_app. cbn [length]. lia.
  - intros Hge. assert (E := Hge). apply Nat.leb_le in E. rewrite E.
    rewrite length_app, pop0_length. cbn [length]. lia.
Qed.

Lemma record_history_keeps_newest_witness :
  (100 <= length hundred_samples)%nat
  /\ length (record_history hundred_samples (mkSample 101 (Some 0) 0 0.35))
     = length hundred_samples.
Proof.
  assert (Hfull : (100 <= length hundred_samples)%nat)
    by (vm_compute; reflexivity).
  split; [exact Hfull |].
  exact (proj2 (proj2 (proj2
           (record_history_keeps_newest hundred_samples
              (mkSample 101 (Some 0) 0 0.35)))) Hfull).
Defined.

(** X11. Appending samples one by one to a buffer that holds at most 100
    leaves the last 100 of the old and new samples together, in order; its
    length is the total number of samples, capped at 100. *)
Theorem record_all_sliding_window :
  forall h ss : list HistorySample,
    (length h <= 100)%nat ->
    record_all h ss = skipn (length (h ++ ss) - 100) (h ++ ss)
    /\ length (record_all h ss) = Nat.min (length h + length ss) 100.
Proof.
  intros h ss Hh. rewrite record_all_from by exact Hh.
  split; [reflexivity |].
  rewrite length_skipn, length_app. lia.
Qed.

Lemma record_all_sliding_window_witness :
  (length hundred_samples <= 100)%nat
  /\ length (record_all hundred_samples hundred_samples)
     = Nat.min (length hundred_samples + length hundred_samples) 100.
Proof.
  assert (Hlen : (length hundred_samples <= 100)%nat)
    by (vm_compute; reflexivity).
  split; [exact Hlen |].
  exact (proj2 (record_all_sliding_window hundred_samples hundred_samples
                  Hlen)).
Defined.

(** ** The update block, beyond the claims *)

Lemma tick_dt_forward (now last : Q) :
  last <= now -> 0 <= Qmin (now - last) 0.1 /\ Qmin (now - last) 0.1 <= 0.1.
Proof. intros Hfwd. split; name_minmax; split_cases; lra. Qed.

(** A step whose duration lies between 0 and 0.1 ends between the starting
    volume and the result of the full 0.1 step. *)
Lemma capped_step_between (v q dt hi : Q) :
  0 <= v -> v <= hi -> 0 <= dt -> dt <= 0.1 ->
  (v <= np_clip (v + q * dt) 0 hi
   /\ np_clip (v + q * dt) 0 hi <= np_clip (v + q * 0.1) 0 hi)
  \/ (np_clip (v + q * 0.1) 0 hi <= np_clip (v + q * dt) 0 hi
      /\ np_clip (v + q * dt) 0 hi <= v).
Proof.
  intros Hv0 Hv1 Hd0 Hd1.
  destruct (Qlt_le_dec q 0) as [Hq | Hq].
  - right.
    assert (Ha : q * 0.1 <= q * dt) by nra.
    assert (Hb : q * dt <= 0) by nra.
    generalize dependent (q * dt). generalize (q * 0.1).
    intros full part Ha Hb. split; clip_arith.
  - left.
    assert (Ha : q * dt <= q * 0.1) by nra.
    assert (Hb : 0 <= q * dt) by nra.
    generalize dependent (q * dt). generalize (q * 0.1).
    intros full part Ha Hb. split; clip_arith.
Qed.

(** X12. However long ago the last update was, an update that is not paused
    and whose clock reading is not earlier than [last_update] moves a volume
    that is inside the tank no further than one step of 0.1 seconds with
    the same flows would: the new volume lies between the old volume and
    [Tank.step(volume, 0.1, Q_in, Q_out)]. *)
Theorem update_moves_at_most_one_capped_step :
  (forall (now wall : Q) (st : StreamlitTankValve.SessionState),
      StreamlitTankValve.paused st = false ->
      StreamlitTankValve.last_update st <= now ->
      0 <= StreamlitTankValve.tank_volume st ->
      StreamlitTankValve.tank_volume st
      <= StreamlitTankValve.V_max (StreamlitTankValve.create_tank st) ->
      let v := StreamlitTankValve.tank_volume st in
      let v' := StreamlitTankValve.tank_volume
                  (snd (StreamlitTankValve.run_update now wall st)) in
      let full :=
        StreamlitTankValve.step (StreamlitTankValve.create_tank st) v 0.1
          (if StreamlitTankValve.inlet_open st
           then StreamlitTankValve.get
                  (StreamlitTankValve.inlet_flow_value st) 0.8
           else 0)
          (StreamlitTankValve.get
             (StreamlitTankValve.outlet_flow_value st) 0.35) in
      (v <= v' /\ v' <= full) \/ (full <= v' /\ v' <= v))
  /\
  (forall (now wall : Q) (st : TankValveSim.SessionState),
      TankValveSim.paused st = false ->
      TankValveSim.last_update st <= now ->
      0 <= TankValveSim.V (TankValveSim.tank st) ->
      TankValveSim.V (TankValveSim.tank st)
      <= TankValveSim.V_max (TankValveSim.tank st) ->
      let v := TankValveSim.V (TankValveSim.tank st) in
      let v' := TankValveSim.V
                  (TankValveSim.tank
                     (TankValveSim.simulation_update now wall st)) in
      let full :=
        snd (TankValveSim.step (TankValveSim.tank st) 0.1
               (if TankValveSim.inlet_open st
                then TankValveSim.inlet_flow st else 0)
               (TankValveSim.outlet_flow st)) in
      (v <= v' /\ v' <= full) \/ (full <= v' /\ v' <= v)).
Proof.
  split.
  - intros now wall st Hrun Hfwd Hv0 Hv1. cbv zeta.
    unfold StreamlitTankValve.run_update, StreamlitTankValve.simulation_update.
    rewrite Hrun. cbn [negb snd].
    cbn [StreamlitTankValve.set_history StreamlitTankValve.set_last_update
         StreamlitTankValve.set_tank_volume StreamlitTankValve.tank_volume].
    unfold StreamlitTankValve.step, StreamlitTankValve.tick_dt.
    destruct (tick_dt_forward now (StreamlitTankValve.last_update st) Hfwd)
      as [Hd0 Hd1].
    apply capped_step_between; assumption.
  - intros now wall st Hrun Hfwd Hv0 Hv1. cbv zeta.
    unfold TankValveSim.simulation_update.
    rewrite Hrun. cbn [negb].
    cbn [TankValveSim.set_history TankValveSim.set_last_update
         TankValveSim.set_tank TankValveSim.tank].
    unfold TankValveSim.step, TankValveSim.tick_dt.
    cbn [fst snd TankValveSim.set_V TankValveSim.V].
    destruct (tick_dt_forward now (TankValveSim.last_update st) Hfwd)
      as [Hd0 Hd1].
    apply capped_step_between; assumption.
Qed.

(** An hour after the last update, with the inlet open at 0.8 and the
    outlet at 0.35, from volume 0.3. *)
Lemma update_moves_at_most_one_capped_step_witness :
  (StreamlitTankValve.paused
     (StreamlitTankValve.set_tank_volume
        (StreamlitTankValve.toggle_inlet
           (StreamlitTankValve.initial_state 100)) 0.3) = false
   /\ StreamlitTankValve.last_update
        (StreamlitTankValve.set_tank_volume
           (StreamlitTankValve.toggle_inlet
              (StreamlitTankValve.initial_state 100)) 0.3) <= 3700
   /\ 0 <= StreamlitTankValve.tank_volume
             (StreamlitTankValve.set_tank_volume
                (StreamlitTankValve.toggle_inlet
                   (StreamlitTankValve.initial_state 100)) 0.3)
   /\ StreamlitTankValve.tank_volume
        (StreamlitTankValve.set_tank_volume
           (StreamlitTankValve.toggle_inlet
              (StreamlitTankValve.initial_state 100)) 0.3)
      <= StreamlitTankValve.V_max
           (StreamlitTankValve.create_tank
              (StreamlitTankValve.set_tank_volume
                 (StreamlitTankValve.toggle_inlet
                    (StreamlitTankValve.initial_state 100)) 0.3)))
  /\ (0.3 <= StreamlitTankValve.tank_volume
               (snd (StreamlitTankValve.run_update 3700 0
                       (StreamlitTankValve.set_tank_volume
                          (StreamlitTankValve.toggle_inlet
                             (StreamlitTankValve.initial_state 100)) 0.3)))
      /\ StreamlitTankValve.tank_volume
           (snd (StreamlitTankValve.run_update 3700 0
                   (StreamlitTankValve.set_tank_volume
                      (StreamlitTankValve.toggle_inlet
                         (StreamlitTankValve.initial_state 100)) 0.3)))
         <= StreamlitTankValve.step (StreamlitTankValve.Tank_init 1.2 1)
              0.3 0.1 0.8 0.35).
Proof.
  set (st := StreamlitTankValve.set_tank_volume
               (StreamlitTankValve.toggle_inlet
                  (StreamlitTankValve.initial_state 100)) 0.3).
  assert (Hrun : StreamlitTankValve.paused st = false) by reflexivity.
  assert (Hfwd : StreamlitTankValve.last_update st <= 3700) by q_closed.
  assert (Hv0 : 0 <= StreamlitTankValve.tank_volume st) by q_closed.
  assert (Hv1 : StreamlitTankValve.tank_volume st
                <= StreamlitTankValve.V_max
                     (StreamlitTankValve.create_tank st)) by q_closed.
  split; [repeat split; assumption |].
  destruct (proj1 update_moves_at_most_one_capped_step 3700 0 st
              Hrun Hfwd Hv0 Hv1) as [Hup | [Hdown1 Hdown2]].
  - exact Hup.
  - exfalso. revert Hdown2. vm_compute. intros Hc. apply Hc. reflexivity.
Defined.

Lemma sim_toggle_pause_twice (st : TankValveSim.SessionState) :
  TankValveSim.toggle_pause (TankValveSim.toggle_pause st) = st.
Proof.
  destruct st. unfold TankValveSim.toggle_pause, TankValveSim.set_paused.
  cbn. rewrite negb_involutive. reflexivity.
Qed.

Lemma sim_paused_updates_idle (ticks : list (Q * Q))
    (st : TankValveSim.SessionState) :
  TankValveSim.paused st = true ->
  fold_left (fun s tw => TankValveSim.simulation_update (fst tw) (snd tw) s)
    ticks st = st.
Proof.
  intros Hp. induction ticks as [| tw ticks IH]; [reflexivity |].
  cbn [fold_left]. unfold TankValveSim.simulation_update at 2.
  rewrite Hp. cbn [negb]. exact IH.
Qed.

(** X13. A pause leaves no trace in [TankValveSim.py]: after Pause, any
    number of reruns at any clock readings, and Resume, the next update
    gives exactly the state it would have given without the pause; the time
    that passed while paused only counts up to the 0.1 cap. *)
Theorem pause_resume_leaves_no_trace :
  forall (st : TankValveSim.SessionState) (ticks : list (Q * Q))
         (now wall : Q),
    TankValveSim.paused st = false ->
    fold_left (fun s tw => TankValveSim.simulation_update (fst tw) (snd tw) s)
      ticks (TankValveSim.toggle_pause st)
    = TankValveSim.toggle_pause st
    /\ TankValveSim.simulation_update now wall
         (TankValveSim.toggle_pause
            (fold_left
               (fun s tw => TankValveSim.simulation_update (fst tw) (snd tw) s)
               ticks (TankValveSim.toggle_pause st)))
       = TankValveSim.simulation_update now wall st.
Proof.
  intros st ticks now wall Hrun.
  assert (Hidle : fold_left (fun s tw => TankValveSim.simulation_update
                                           (fst tw) (snd tw) s)
                    ticks (TankValveSim.toggle_pause st)
                  = TankValveSim.toggle_pause st).
  { apply sim_paused_updates_idle.
    unfold TankValveSim.toggle_pause. cbn [TankValveSim.set_paused
                                            TankValveSim.paused].
    rewrite Hrun. reflexivity. }
  split; [exact Hidle |].
  rewrite Hidle, sim_toggle_pause_twice. reflexivity.
Qed.

Lemma pause_resume_leaves_no_trace_witness :
  TankValveSim.paused (TankValveSim.initial_state 100) = false
  /\ TankValveSim.simulation_update 200 0
       (TankValveSim.toggle_pause
          (fold_left
             (fun s tw => TankValveSim.simulation_update (fst tw) (snd tw) s)
             [(120, 0); (160, 0)]
             (TankValveSim.toggle_pause (TankValveSim.initial_state 100))))
     = TankValveSim.simulation_update 200 0 (TankValveSim.initial_state 100).
Proof.
  assert (Hrun : TankValveSim.paused (TankValveSim.initial_state 100) = false)
    by reflexivity.
  split; [exact Hrun |].
  exact (proj2 (pause_resume_leaves_no_trace
                  (TankValveSim.initial_state 100) [(120, 0); (160, 0)]
                  200 0 Hrun)).
Defined.

(** ** The valve modal, beyond the claims *)

Lemma modal_check_closed (now : Q) (st : TankValveSim.SessionState) :
  TankValveSim.show_valve_modal st = false ->
  TankValveSim.modal_timeout_check now st = st.
Proof.
  intros Hclosed. unfold TankValveSim.modal_timeout_check.
  rewrite Hclosed. reflexivity.
Qed.

Lemma modal_check_effect (now : Q) (st : TankValveSim.SessionState) :
  TankValveSim.modal_timeout_check now st = st
  \/ TankValveSim.modal_timeout_check now st
     = TankValveSim.set_show_valve_modal st false.
Proof.
  unfold TankValveSim.modal_timeout_check.
  destruct (TankValveSim.show_valve_modal st); [| left; reflexivity].
  destruct (TankValveSim.modal_opened_at st) as [t0 |]; [| left; reflexivity].
  destruct (truthy (Some t0) && Qlt_bool 5 (now - t0));
    [right | left]; reflexivity.
Qed.

(** X15. Reruns alone can only close the modal: whatever the clock
    readings, the timeout checks leave the state as it is or with
    [show_valve_modal] set to false and nothing else changed; a closed modal
    stays closed, and the stamp of the last opening is never erased. *)
Theorem modal_ticks_only_close :
  forall (ticks : list Q) (st : TankValveSim.SessionState),
    (TankValveSim.modal_ticks ticks st = st
     \/ TankValveSim.modal_ticks ticks st
        = TankValveSim.set_show_valve_modal st false)
    /\ (TankValveSim.show_valve_modal st = false ->
        TankValveSim.modal_ticks ticks st = st)
    /\ TankValveSim.modal_opened_at (TankValveSim.modal_ticks ticks st)
       = TankValveSim.modal_opened_at st.
Proof.
  assert (Hclosed : forall ticks st,
             TankValveSim.show_valve_modal st = false ->
             TankValveSim.modal_ticks ticks st = st).
  { unfold TankValveSim.modal_ticks.
    induction ticks as [| now ticks IH]; intros st Hc; [reflexivity |].
    cbn [fold_left]. rewrite (modal_check_closed now st Hc).
    apply IH. exact Hc. }
  assert (Heffect : forall ticks st,
             TankValveSim.modal_ticks ticks st = st
             \/ TankValveSim.modal_ticks ticks st
                = TankValveSim.set_show_valve_modal st false).
  { induction ticks as [| now ticks IH]; intros st; [left; reflexivity |].
    change (TankValveSim.modal_ticks (now :: ticks) st)
      with (TankValveSim.modal_ticks ticks
              (TankValveSim.modal_timeout_check now st)).
    destruct (modal_check_effect now st) as [E | E]; rewrite E.
    - apply IH.
    - right. apply Hclosed. reflexivity. }
  intros ticks st. split; [apply Heffect | split; [apply Hclosed |]].
  destruct (Heffect ticks st) as [E | E]; rewrite E; reflexivity.
Qed.

Lemma modal_ticks_only_close_witness :
  TankValveSim.show_valve_modal (TankValveSim.initial_state 100) = false
  /\ TankValveSim.modal_ticks [101; 200; 3]
       (TankValveSim.initial_state 100)
     = TankValveSim.initial_state 100.
Proof.
  assert (Hc : TankValveSim.show_valve_modal (TankValveSim.initial_state 100)
               = false) by reflexivity.
  split; [exact Hc |].
  exact (proj1 (proj2 (modal_ticks_only_close [101; 200; 3]
                         (TankValveSim.initial_state 100))) Hc).
Defined.

(** ** Buttons *)

Lemma sim_toggle_inlet_twice (st : TankValveSim.SessionState) :
  TankValveSim.toggle_inlet (TankValveSim.toggle_inlet st) = st.
Proof.
  destruct st. unfold TankValveSim.toggle_inlet, TankValveSim.set_inlet_open.
  cbn. rewrite negb_involutive. reflexivity.
Qed.

(** X16. The two toggle buttons undo themselves: pressing the inlet button
    twice, or the pause button twice, gives back the very same session
    state, in both scripts; each press flips its flag. *)
Theorem toggles_are_involutions :
  (forall st : StreamlitTankValve.SessionState,
      StreamlitTankValve.toggle_inlet (StreamlitTankValve.toggle_inlet st) = st
      /\ StreamlitTankValve.toggle_pause (StreamlitTankValve.toggle_pause st)
         = st
      /\ StreamlitTankValve.inlet_open (StreamlitTankValve.toggle_inlet st)
         = negb (StreamlitTankValve.inlet_open st)
      /\ StreamlitTankValve.paused (StreamlitTankValve.toggle_pause st)
         = negb (StreamlitTankValve.paused st))
  /\
  (forall st : TankValveSim.SessionState,
      TankValveSim.toggle_inlet (TankValveSim.toggle_inlet st) = st
      /\ TankValveSim.toggle_pause (TankValveSim.toggle_pause st) = st
      /\ TankValveSim.inlet_open (TankValveSim.toggle_inlet st)
         = negb (TankValveSim.inlet_open st)
      /\ TankValveSim.paused (TankValveSim.toggle_pause st)
         = negb (TankValveSim.paused st)).
Proof.
  split.
  - intros st. repeat split; destruct st;
      unfold StreamlitTankValve.toggle_inlet, StreamlitTankValve.toggle_pause,
        StreamlitTankValve.set_inlet_open, StreamlitTankValve.set_paused;
      cbn; rewrite negb_involutive; reflexivity.
  - intros st.
    split; [apply sim_toggle_inlet_twice |].
    split; [apply sim_toggle_pause_twice |].
    split; reflexivity.
Qed.

(** ** Whole sessions *)

(** The level in percent that an update records, for a capacity that is not
    0, lies between 0 and 100. *)
Lemma level_percent_in_range (x y : Q) :
  ~ y == 0 ->
  exists l,
    option_map (fun l => l * 100)
      match fdiv x y with
      | Some r => Some (Qmin 1 (Qmax 0 r))
      | None => None
      end = Some l
    /\ 0 <= l /\ l <= 100.
Proof.
  intros Hy. rewrite fdiv_defined by exact Hy. cbn [option_map].
  eexists. split; [reflexivity |].
  destruct (fraction_range (x / y)) as [H0 H1]. split; lra.
Qed.

Lemma streamlit_initial_ok (t0 : Q) :
  StreamlitTankValve.session_ok (StreamlitTankValve.initial_state t0).
Proof.
  unfold StreamlitTankValve.session_ok. cbn.
  repeat split; try q_closed; try lia. constructor.
Qed.

Lemma streamlit_update_ok (now wall : Q)
    (st : StreamlitTankValve.SessionState) :
  StreamlitTankValve.session_ok st ->
  StreamlitTankValve.session_ok
    (snd (StreamlitTankValve.run_update now wall st)).
Proof.
  intros Hok.
  destruct Hok as [Hlen [[Hv0 Hv1] [[Ha0 Ha1] [[Hi0 Hi1] [[Ho0 Ho1] Hs]]]]].
  unfold StreamlitTankValve.run_update, StreamlitTankValve.simulation_update.
  destruct (StreamlitTankValve.paused st); cbn [negb snd].
  - unfold StreamlitTankValve.session_ok. repeat split; assumption.
  - assert (Hcap : StreamlitTankValve.V_max
                     (StreamlitTankValve.set_A
                        (StreamlitTankValve.create_tank st)
                        (StreamlitTankValve.tank_area st))
                   == StreamlitTankValve.tank_area st)
      by (unfold StreamlitTankValve.V_max; cbn; ring).
    set (tk := StreamlitTankValve.set_A (StreamlitTankValve.create_tank st)
                 (StreamlitTankValve.tank_area st)) in *.
    set (q_in := if StreamlitTankValve.inlet_open st
                 then StreamlitTankValve.get
                        (StreamlitTankValve.inlet_flow_value st) 0.8
                 else 0).
    assert (Hq : 0 <= q_in /\ q_in <= 1.5).
    { unfold q_in. destruct (StreamlitTankValve.inlet_open st);
        split; try assumption; q_closed. }
    unfold StreamlitTankValve.session_ok.
    cbn [StreamlitTankValve.set_history StreamlitTankValve.set_last_update
         StreamlitTankValve.set_tank_volume StreamlitTankValve.history
         StreamlitTankValve.tank_volume StreamlitTankValve.tank_area
         StreamlitTankValve.inlet_flow_value
         StreamlitTankValve.outlet_flow_value].
    destruct (np_clip_range
                (StreamlitTankValve.tank_volume st
                 + (q_in - StreamlitTankValve.get
                             (StreamlitTankValve.outlet_flow_value st) 0.35)
                   * StreamlitTankValve.tick_dt now
                       (StreamlitTankValve.last_update st))
                (StreamlitTankValve.V_max tk)) as [Hn0 Hn1]; [lra |].
    split; [apply record_history_length; exact Hlen |].
    split; [unfold StreamlitTankValve.step; split; lra |].
    split; [split; assumption |].
    split; [split; assumption |].
    split; [split; assumption |].
    apply Forall_record_history; [exact Hs |].
    unfold sample_in_range.
    cbn [sample_level sample_Q_in sample_Q_out].
    split; [| split; [exact Hq | split; assumption]].
    unfold StreamlitTankValve.level. apply level_percent_in_range. lra.
Qed.

Lemma streamlit_run_ok (i : StreamlitTankValve.RunInput)
    (st : StreamlitTankValve.SessionState) :
  StreamlitTankValve.sliders_in_range i ->
  StreamlitTankValve.session_ok st ->
  StreamlitTankValve.session_ok (StreamlitTankValve.script_run i st).
Proof.
  intros [[Hi0 Hi1] [[Ho0 Ho1] [Ha0 Ha1]]] Hok.
  unfold StreamlitTankValve.script_run.
  pose proof (streamlit_update_ok (StreamlitTankValve.run_current_time i)
                (StreamlitTankValve.run_wall i) st Hok) as Hup.
  set (st1 := snd (StreamlitTankValve.run_update
                     (StreamlitTankValve.run_current_time i)
                     (StreamlitTankValve.run_wall i) st)) in *.
  destruct Hup as [Hlen [[Hv0 Hv1] [[Hb0 Hb1] [[Hj0 Hj1] [[Hp0 Hp1] Hs]]]]].
  destruct (StreamlitTankValve.run_inlet_clicked i).
  { unfold StreamlitTankValve.session_ok. cbn. repeat split; assumption. }
  destruct (StreamlitTankValve.run_pause_clicked i).
  { unfold StreamlitTankValve.session_ok. cbn. repeat split; assumption. }
  destruct (StreamlitTankValve.run_reset_clicked i).
  - unfold StreamlitTankValve.session_ok. cbn.
    repeat split; try assumption; try q_closed; try lia. constructor.
  - unfold StreamlitTankValve.session_ok. cbn. repeat split; assumption.
Qed.

Lemma streamlit_session_ok (t0 : Q)
    (inputs : list StreamlitTankValve.RunInput) :
  Forall StreamlitTankValve.sliders_in_range inputs ->
  StreamlitTankValve.session_ok (StreamlitTankValve.session t0 inputs).
Proof.
  intros Hall. unfold StreamlitTankValve.session.
  generalize (streamlit_initial_ok t0).
  generalize (StreamlitTankValve.initial_state t0).
  induction Hall as [| i inputs Hi _ IH]; intros st Hok; [exact Hok |].
  cbn [fold_left]. apply IH. apply streamlit_run_ok; assumption.
Qed.

(** X17. In every session of [streamlit-tank-valve.py] whose sliders return
    values in their declared ranges, whatever the buttons pressed and the
    clock readings (backward jumps included), after every run the history
    holds at most 100 samples, the volume lies between 0 and 3 (the largest
    capacity the area slider allows) and the stored area between 0.5
    and 3. *)
Theorem streamlit_session_bounds :
  forall (t0 : Q) (inputs : list StreamlitTankValve.RunInput),
    Forall StreamlitTankValve.sliders_in_range inputs ->
    let st := StreamlitTankValve.session t0 inputs in
    (length (StreamlitTankValve.history st) <= 100)%nat
    /\ 0 <= StreamlitTankValve.tank_volume st
    /\ StreamlitTankValve.tank_volume st <= 3
    /\ 0.5 <= StreamlitTankValve.tank_area st
    /\ StreamlitTankValve.tank_area st <= 3.
Proof.
  intros t0 inputs Hall. cbv zeta.
  destruct (streamlit_session_ok t0 inputs Hall)
    as [Hlen [[Hv0 Hv1] [[Ha0 Ha1] _]]].
  repeat split; assumption.
Qed.

(** X18. In every such session each sample of the history carries a level
    between 0 and 100 percent, an inflow between 0 and 1.5 and an outflow
    between 0 and 1.2. *)
Theorem streamlit_session_samples :
  forall (t0 : Q) (inputs : list StreamlitTankValve.RunInput),
    Forall StreamlitTankValve.sliders_in_range inputs ->
    forall s : HistorySample,
      In s (StreamlitTankValve.history (StreamlitTankValve.session t0 inputs)) ->
      (exists l, sample_level s = Some l /\ 0 <= l /\ l <= 100)
      /\ 0 <= sample_Q_in s /\ sample_Q_in s <= 1.5
      /\ 0 <= sample_Q_out s /\ sample_Q_out s <= 1.2.
Proof.
  intros t0 inputs Hall s Hin.
  destruct (streamlit_session_ok t0 inputs Hall) as [_ [_ [_ [_ [_ Hs]]]]].
  rewrite Forall_forall in Hs.
  destruct (Hs s Hin) as [Hl [[Hi0 Hi1] [Ho0 Ho1]]].
  repeat split; assumption.
Qed.

Lemma streamlit_session_bounds_witness :
  Forall StreamlitTankValve.sliders_in_range
    [StreamlitTankValve.mkInput 100.05 0 true 0.8 0.35 1.2 false false;
     StreamlitTankValve.mkInput 99 0 false 1.5 0 0.5 false false]
  /\ 0 <= StreamlitTankValve.tank_volume
            (StreamlitTankValve.session 100
               [StreamlitTankValve.mkInput 100.05 0 true 0.8 0.35 1.2
                  false false;
                StreamlitTankValve.mkInput 99 0 false 1.5 0 0.5 false false])
  /\ StreamlitTankValve.tank_volume
       (StreamlitTankValve.session 100
          [StreamlitTankValve.mkInput 100.05 0 true 0.8 0.35 1.2 false false;
           StreamlitTankValve.mkInput 99 0 false 1.5 0 0.5 false false])
     <= 3.
Proof.
  assert (Hall : Forall StreamlitTankValve.sliders_in_range
                   [StreamlitTankValve.mkInput 100.05 0 true 0.8 0.35 1.2
                      false false;
                    StreamlitTankValve.mkInput 99 0 false 1.5 0 0.5
                      false false])
    by (repeat constructor; q_closed).
  split; [exact Hall |].
  pose proof (streamlit_session_bounds 100 _ Hall) as Hb.
  cbv zeta in Hb. destruct Hb as [_ [Hv0 [Hv1 _]]].
  split; assumption.
Defined.

Lemma streamlit_session_samples_witness :
  Forall StreamlitTankValve.sliders_in_range
    [StreamlitTankValve.mkInput 100.05 0 false 0.8 0.35 1.2 false false]
  /\ In (mkSample 0 (Some 0) 0 0.35)
       (StreamlitTankValve.history
          (StreamlitTankValve.session 100
             [StreamlitTankValve.mkInput 100.05 0 false 0.8 0.35 1.2
                false false]))
  /\ (exists l, sample_level (mkSample 0 (Some 0) 0 0.35) = Some l
                /\ 0 <= l /\ l <= 100).
Proof.
  assert (Hall : Forall StreamlitTankValve.sliders_in_range
                   [StreamlitTankValve.mkInput 100.05 0 false 0.8 0.35 1.2
                      false false])
    by (repeat constructor; q_closed).
  assert (Hin : In (mkSample 0 (Some 0) 0 0.35)
                  (StreamlitTankValve.history
                     (StreamlitTankValve.session 100
                        [StreamlitTankValve.mkInput 100.05 0 false 0.8 0.35
                           1.2 false false])))
    by (left; vm_compute; reflexivity).
  split; [exact Hall | split; [exact Hin |]].
  exact (proj1 (streamlit_session_samples 100 _ Hall _ Hin)).
Defined.

Ltac sim_fields :=
  cbn [TankValveSim.tank_volume TankValveSim.inlet_open
       TankValveSim.valve_position TankValveSim.show_valve_modal
       TankValveSim.history TankValveSim.last_update TankValveSim.paused
       TankValveSim.modal_opened_at TankValveSim.tank TankValveSim.valve
       TankValveSim.inlet_flow TankValveSim.outlet_flow TankValveSim.tank_area
       TankValveSim.set_inlet_open TankValveSim.set_show_valve_modal
       TankValveSim.set_history TankValveSim.set_last_update
       TankValveSim.set_paused TankValveSim.set_modal_opened_at
       TankValveSim.set_tank TankValveSim.set_valve_position
       TankValveSim.set_sliders TankValveSim.set_V TankValveSim.set_A
       TankValveSim.A TankValveSim.H_max TankValveSim.V] in *.

Lemma sim_initial_ok (t0 : Q) :
  TankValveSim.session_ok (TankValveSim.initial_state t0).
Proof.
  unfold TankValveSim.session_ok. cbn.
  repeat split; try q_closed; try lia. constructor.
Qed.

Lemma sim_update_ok (now wall : Q) (st : TankValveSim.SessionState) :
  TankValveSim.session_ok st ->
  TankValveSim.session_ok (TankValveSim.simulation_update now wall st).
Proof.
  intros Hok.
  destruct Hok as [Hlen [[Hv0 Hv1] [[Ha0 Ha1] [HH [[Hi0 Hi1] [[Ho0 Ho1]
                     [[Hp0 Hp1] [Hvalve Hs]]]]]]]].
  unfold TankValveSim.simulation_update.
  destruct (TankValveSim.paused st); cbn [negb].
  - unfold TankValveSim.session_ok. repeat split; assumption.
  - assert (Hcap : TankValveSim.V_max (TankValveSim.tank st)
                   == TankValveSim.A (TankValveSim.tank st))
      by (unfold TankValveSim.V_max; rewrite HH; ring).
    set (q_in := if TankValveSim.inlet_open st
                 then TankValveSim.inlet_flow st else 0).
    assert (Hq : 0 <= q_in /\ q_in <= 1.5).
    { unfold q_in. destruct (TankValveSim.inlet_open st);
        split; try assumption; q_closed. }
    unfold TankValveSim.session_ok, TankValveSim.step.
    cbn [fst]. sim_fields.
    destruct (np_clip_range
                (TankValveSim.V (TankValveSim.tank st)
                 + (q_in - TankValveSim.outlet_flow st)
                   * TankValveSim.tick_dt now (TankValveSim.last_update st))
                (TankValveSim.V_max (TankValveSim.tank st)))
      as [Hn0 Hn1]; [lra |].
    split; [apply record_history_length; exact Hlen |].
    split; [split; lra |].
    split; [split; assumption |].
    split; [exact HH |].
    split; [split; assumption |].
    split; [split; assumption |].
    split; [split; assumption |].
    split; [exact Hvalve |].
    apply Forall_record_history; [exact Hs |].
    unfold sample_in_range.
    cbn [sample_level sample_Q_in sample_Q_out].
    split; [| split; [exact Hq | split; assumption]].
    unfold TankValveSim.level. sim_fields.
    apply level_percent_in_range.
    unfold TankValveSim.V_max. sim_fields. rewrite HH. lra.
Qed.

Lemma valve_pos_fraction (z : Z) :
  (0 <= z <= 100)%Z -> 0 <= inject_Z z / 100 /\ inject_Z z / 100 <= 1.
Proof.
  intros [Hz0 Hz1].
  assert (H0 : 0 <= inject_Z z)
    by (change 0 with (inject_Z 0); rewrite <- Zle_Qle; exact Hz0).
  assert (H1 : inject_Z z <= 100)
    by (change 100 with (inject_Z 100); rewrite <- Zle_Qle; exact Hz1).
  split; [apply Qle_shift_div_l | apply Qle_shift_div_r]; lra.
Qed.

Lemma sim_modal_block_ok (i : TankValveSim.RunInput)
    (st : TankValveSim.SessionState) :
  (0 <= TankValveSim.run_valve_pos i <= 100)%Z ->
  TankValveSim.session_ok st ->
  TankValveSim.session_ok (fst (TankValveSim.modal_block i st)).
Proof.
  intros Hz Hok.
  destruct (valve_pos_fraction _ Hz) as [Hf0 Hf1].
  destruct Hok as [Hlen [[Hv0 Hv1] [[Ha0 Ha1] [HH [[Hi0 Hi1] [[Ho0 Ho1]
                     [[Hp0 Hp1] [Hvalve Hs]]]]]]]].
  unfold TankValveSim.modal_block.
  destruct (TankValveSim.show_valve_modal st) eqn:Hshow;
    [| unfold TankValveSim.session_ok; cbn [fst]; repeat split; assumption].
  destruct (TankValveSim.modal_expired (TankValveSim.run_modal_time i) st).
  { cbn [fst].
    destruct (modal_check_effect (TankValveSim.run_modal_time i) st)
      as [E | E]; rewrite E;
      unfold TankValveSim.session_ok; sim_fields; repeat split; assumption. }
  destruct (TankValveSim.run_close_clicked i).
  { unfold TankValveSim.session_ok; cbn [fst]; sim_fields;
      repeat split; assumption. }
  destruct (TankValveSim.run_fully_open_clicked i).
  { unfold TankValveSim.session_ok; cbn [fst]; sim_fields;
      repeat split; try assumption; q_closed. }
  destruct (TankValveSim.run_fully_close_clicked i);
    unfold TankValveSim.session_ok; cbn [fst]; sim_fields;
    repeat split; try assumption; q_closed.
Qed.

Lemma sim_run_ok (i : TankValveSim.RunInput) (st : TankValveSim.SessionState) :
  TankValveSim.sliders_in_range i ->
  TankValveSim.session_ok st ->
  TankValveSim.session_ok (TankValveSim.script_run i st).
Proof.
  intros [[Hi0 Hi1] [[Ho0 Ho1] [[Ha0 Ha1] Hz]]] Hok.
  unfold TankValveSim.script_run.
  set (st1 := if TankValveSim.run_open_clicked i
              then TankValveSim.open_valve_control
                     (TankValveSim.run_open_time i) st
              else st).
  assert (Hok1 : TankValveSim.session_ok st1).
  { unfold st1. destruct (TankValveSim.run_open_clicked i); [| exact Hok].
    unfold TankValveSim.session_ok, TankValveSim.open_valve_control in *.
    sim_fields. exact Hok. }
  clearbody st1. clear Hok st.
  set (st2 := if TankValveSim.run_inlet_clicked i
              then TankValveSim.toggle_inlet st1 else st1).
  assert (Hok2 : TankValveSim.session_ok st2).
  { unfold st2. destruct (TankValveSim.run_inlet_clicked i); [| exact Hok1].
    unfold TankValveSim.session_ok, TankValveSim.toggle_inlet in *.
    sim_fields. exact Hok1. }
  clearbody st2. clear Hok1 st1.
  set (st3 := TankValveSim.set_tank
                (TankValveSim.set_sliders st2 (TankValveSim.run_inlet_flow i)
                   (TankValveSim.run_outlet_flow i)
                   (TankValveSim.run_tank_area i))
                (TankValveSim.set_A
                   (TankValveSim.tank
                      (TankValveSim.set_sliders st2
                         (TankValveSim.run_inlet_flow i)
                         (TankValveSim.run_outlet_flow i)
                         (TankValveSim.run_tank_area i)))
                   (TankValveSim.run_tank_area i))).
  assert (Hok3 : TankValveSim.session_ok st3).
  { unfold st3.
    destruct Hok2 as [Hlen [[Hv0 Hv1] [_ [HH [_ [_ [[Hp0 Hp1]
                        [Hvalve Hs]]]]]]]].
    unfold TankValveSim.session_ok. sim_fields.
    repeat split; assumption. }
  clearbody st3. clear Hok2 st2.
  set (st4 := if TankValveSim.run_pause_clicked i
              then TankValveSim.toggle_pause st3 else st3).
  assert (Hok4 : TankValveSim.session_ok st4).
  { unfold st4. destruct (TankValveSim.run_pause_clicked i); [| exact Hok3].
    unfold TankValveSim.session_ok, TankValveSim.toggle_pause in *.
    sim_fields. exact Hok3. }
  clearbody st4. clear Hok3 st3.
  set (st5 := if TankValveSim.run_reset_clicked i
              then TankValveSim.reset st4 else st4).
  assert (Hok5 : TankValveSim.session_ok st5).
  { unfold st5. destruct (TankValveSim.run_reset_clicked i); [| exact Hok4].
    destruct Hok4 as [Hlen [[Hv0 Hv1] [[Hb0 Hb1] [HH [[Hj0 Hj1] [[Hq0 Hq1]
                        [[Hp0 Hp1] [Hvalve Hs]]]]]]]].
    unfold TankValveSim.session_ok, TankValveSim.reset. sim_fields.
    repeat split; try assumption; try q_closed; try (cbn; lia).
    constructor. }
  clearbody st5. clear Hok4 st4.
  pose proof (sim_modal_block_ok i st5 Hz Hok5) as Hok6.
  destruct (TankValveSim.modal_block i st5) as [st6 rerun].
  cbn [fst] in Hok6.
  destruct rerun; [exact Hok6 | apply sim_update_ok; exact Hok6].
Qed.

Lemma sim_session_ok (t0 : Q) (inputs : list TankValveSim.RunInput) :
  Forall TankValveSim.sliders_in_range inputs ->
  TankValveSim.session_ok (TankValveSim.session t0 inputs).
Proof.
  intros Hall. unfold TankValveSim.session.
  generalize (sim_initial_ok t0).
  generalize (TankValveSim.initial_state t0).
  induction Hall as [| i inputs Hi _ IH]; intros st Hok; [exact Hok |].
  cbn [fold_left]. apply IH. apply sim_run_ok; assumption.
Qed.

(** X19. In every session of [TankValveSim.py] whose sliders return values
    in their declared ranges, whatever the buttons pressed and the clock
    readings, after every run the history holds at most 100 samples, each
    with a level between 0 and 100 percent and flows inside the slider
    ranges; the tank's volume lies between 0 and 3, its area between 0.5
    and 3 and its height is 1. *)
Theorem sim_session_bounds :
  forall (t0 : Q) (inputs : list TankValveSim.RunInput),
    Forall TankValveSim.sliders_in_range inputs ->
    let st := TankValveSim.session t0 inputs in
    (length (TankValveSim.history st) <= 100)%nat
    /\ 0 <= TankValveSim.V (TankValveSim.tank st)
    /\ TankValveSim.V (TankValveSim.tank st) <= 3
    /\ 0.5 <= TankValveSim.A (TankValveSim.tank st)
    /\ TankValveSim.A (TankValveSim.tank st) <= 3
    /\ TankValveSim.H_max (TankValveSim.tank st) = 1
    /\ (forall s : HistorySample,
           In s (TankValveSim.history st) ->
           (exists l, sample_level s = Some l /\ 0 <= l /\ l <= 100)
           /\ 0 <= sample_Q_in s /\ sample_Q_in s <= 1.5
           /\ 0 <= sample_Q_out s /\ sample_Q_out s <= 1.2).
Proof.
  intros t0 inputs Hall. cbv zeta.
  destruct (sim_session_ok t0 inputs Hall)
    as [Hlen [[Hv0 Hv1] [[Ha0 Ha1] [HH [_ [_ [_ [_ Hs]]]]]]]].
  split; [exact Hlen |].
  split; [exact Hv0 | split; [exact Hv1 |]].
  split; [exact Ha0 | split; [exact Ha1 |]].
  split; [exact HH |].
  intros s Hin. rewrite Forall_forall in Hs.
  destruct (Hs s Hin) as [Hl [[Hi0 Hi1] [Ho0 Ho1]]].
  repeat split; assumption.
Qed.

(** X20. In every such session the valve position written by the control
    panel stays between 0 and 1, and the [Valve] object itself is never
    touched: it keeps coefficient 0.8 and position 0, so its [flow_rate]
    is 0 throughout. *)
Theorem sim_session_valve :
  forall (t0 : Q) (inputs : list TankValveSim.RunInput),
    Forall TankValveSim.sliders_in_range inputs ->
    let st := TankValveSim.session t0 inputs in
    0 <= TankValveSim.valve_position st
    /\ TankValveSim.valve_position st <= 1
    /\ TankValveSim.valve st = TankValveSim.Valve_init 0.8
    /\ TankValveSim.flow_rate (TankValveSim.valve st) == 0.
Proof.
  intros t0 inputs Hall. cbv zeta.
  destruct (sim_session_ok t0 inputs Hall)
    as [_ [_ [_ [_ [_ [_ [[Hp0 Hp1] [Hvalve _]]]]]]]].
  repeat split; try assumption.
  rewrite Hvalve. reflexivity.
Qed.

(** A run of [TankValveSim.py] with the panel open: the slider at 40, then
    "Fully Open" pressed. *)
Lemma sim_session_valve_witness :
  Forall TankValveSim.sliders_in_range
    [TankValveSim.mkInput true 100 true 0.8 0.35 1.2 false false
       100.01 false 40 false false 100.02 0;
     TankValveSim.mkInput false 0 false 0.8 0.35 1.2 false false
       100.06 false 40 true false 100.07 0]
  /\ TankValveSim.valve_position
       (TankValveSim.session 100
          [TankValveSim.mkInput true 100 true 0.8 0.35 1.2 false false
             100.01 false 40 false false 100.02 0;
           TankValveSim.mkInput false 0 false 0.8 0.35 1.2 false false
             100.06 false 40 true false 100.07 0]) <= 1
  /\ TankValveSim.flow_rate
       (TankValveSim.valve
          (TankValveSim.session 100
             [TankValveSim.mkInput true 100 true 0.8 0.35 1.2 false false
                100.01 false 40 false false 100.02 0;
              TankValveSim.mkInput false 0 false 0.8 0.35 1.2 false false
                100.06 false 40 true false 100.07 0])) == 0.
Proof.
  assert (Hall : Forall TankValveSim.sliders_in_range
                   [TankValveSim.mkInput true 100 true 0.8 0.35 1.2 false
                      false 100.01 false 40 false false 100.02 0;
                    TankValveSim.mkInput false 0 false 0.8 0.35 1.2 false
                      false 100.06 false 40 true false 100.07 0]).
  { repeat constructor; try q_closed; cbn; lia. }
  split; [exact Hall |].
  pose proof (sim_session_valve 100 _ Hall) as Hv.
  cbv zeta in Hv. destruct Hv as [_ [Hp1 [_ Hflow]]].
  split; assumption.
Defined.

Lemma sim_session_bounds_witness :
  Forall TankValveSim.sliders_in_range
    [TankValveSim.mkInput false 0 true 1.5 0 0.5 false false
       0 false 0 false false 100.05 0;
     TankValveSim.mkInput false 0 false 1.5 0 3 false false
       0 false 0 false false 99 0]
  /\ 0 <= TankValveSim.V
            (TankValveSim.tank
               (TankValveSim.session 100
                  [TankValveSim.mkInput false 0 true 1.5 0 0.5 false false
                     0 false 0 false false 100.05 0;
                   TankValveSim.mkInput false 0 false 1.5 0 3 false false
                     0 false 0 false false 99 0]))
  /\ TankValveSim.V
       (TankValveSim.tank
          (TankValveSim.session 100
             [TankValveSim.mkInput false 0 true 1.5 0 0.5 false false
                0 false 0 false false 100.05 0;
              TankValveSim.mkInput false 0 false 1.5 0 3 false false
                0 false 0 false false 99 0])) <= 3.
Proof.
  assert (Hall : Forall TankValveSim.sliders_in_range
                   [TankValveSim.mkInput false 0 true 1.5 0 0.5 false false
                      0 false 0 false false 100.05 0;
                    TankValveSim.mkInput false 0 false 1.5 0 3 false false
                      0 false 0 false false 99 0]).
  { repeat constructor; try q_closed; cbn; lia. }
  split; [exact Hall |].
  pose proof (sim_session_bounds 100 _ Hall) as Hb.
  cbv zeta in Hb. destruct Hb as [_ [Hv0 [Hv1 _]]].
  split; assumption.
Defined.

(** X21. The run in which Reset is pressed ends differently in the two
    scripts.  In [streamlit-tank-valve.py] the handler reruns at once: the
    run ends with volume 0, the inlet closed and an empty history.  In
    [TankValveSim.py] the same run goes on to the update: with the modal
    closed, the simulation running, a non-negative outflow and capacity and
    a clock that has not gone back, it ends with volume 0, the inlet closed
    and a history of exactly one sample, taken with inflow 0. *)
Theorem reset_run_outcomes :
  (forall (i : StreamlitTankValve.RunInput)
          (st : StreamlitTankValve.SessionState),
      StreamlitTankValve.run_reset_clicked i = true ->
      StreamlitTankValve.run_inlet_clicked i = false ->
      StreamlitTankValve.run_pause_clicked i = false ->
      StreamlitTankValve.tank_volume (StreamlitTankValve.script_run i st) = 0
      /\ StreamlitTankValve.inlet_open (StreamlitTankValve.script_run i st)
         = false
      /\ StreamlitTankValve.history (StreamlitTankValve.script_run i st) = [])
  /\
  (forall (i : TankValveSim.RunInput) (st : TankValveSim.SessionState),
      TankValveSim.run_reset_clicked i = true ->
      TankValveSim.run_open_clicked i = false ->
      TankValveSim.run_pause_clicked i = false ->
      TankValveSim.show_valve_modal st = false ->
      TankValveSim.paused st = false ->
      0 <= TankValveSim.run_outlet_flow i ->
      0 <= TankValveSim.run_tank_area i * TankValveSim.H_max (TankValveSim.tank st) ->
      TankValveSim.last_update st <= TankValveSim.run_current_time i ->
      TankValveSim.V (TankValveSim.tank (TankValveSim.script_run i st)) == 0
      /\ TankValveSim.inlet_open (TankValveSim.script_run i st) = false
      /\ exists s,
           TankValveSim.history (TankValveSim.script_run i st) = [s]
           /\ sample_time s = TankValveSim.run_wall i
           /\ sample_Q_in s = 0
           /\ sample_Q_out s = TankValveSim.run_outlet_flow i).
Proof.
  split.
  - intros i st Hreset Hinlet Hpause.
    unfold StreamlitTankValve.script_run.
    rewrite Hreset, Hinlet, Hpause. repeat split.
  - intros i st Hreset Hopen Hpause Hclosed Hrun Hout Hcap Hfwd.
    unfold TankValveSim.script_run.
    rewrite Hreset, Hopen, Hpause.
    unfold TankValveSim.modal_block, TankValveSim.reset.
    destruct (TankValveSim.run_inlet_clicked i);
      unfold TankValveSim.toggle_inlet; sim_fields;
      rewrite Hclosed; unfold TankValveSim.simulation_update; sim_fields;
      rewrite Hrun; cbn [negb]; unfold TankValveSim.step; cbn [fst];
      sim_fields;
      (split; [| split; [reflexivity |
                         eexists; split; [reflexivity | repeat split]]]);
      destruct (tick_dt_forward (TankValveSim.run_current_time i)
                  (TankValveSim.last_update st) Hfwd) as [Hd0 _];
      unfold TankValveSim.tick_dt, TankValveSim.V_max; sim_fields;
      apply np_clip_at_min; try exact Hcap; nra.
Qed.

Lemma reset_run_outcomes_witness :
  (TankValveSim.run_reset_clicked
     (TankValveSim.mkInput false 0 false 0.8 0.35 1.2 false true
        0 false 0 false false 100.05 7) = true
   /\ TankValveSim.show_valve_modal (TankValveSim.initial_state 100) = false
   /\ TankValveSim.paused (TankValveSim.initial_state 100) = false
   /\ 0 <= 0.35
   /\ 0 <= 1.2 * TankValveSim.H_max
                   (TankValveSim.tank (TankValveSim.initial_state 100))
   /\ TankValveSim.last_update (TankValveSim.initial_state 100) <= 100.05)
  /\ TankValveSim.V
       (TankValveSim.tank
          (TankValveSim.script_run
             (TankValveSim.mkInput false 0 false 0.8 0.35 1.2 false true
                0 false 0 false false 100.05 7)
             (TankValveSim.initial_state 100))) == 0
  /\ StreamlitTankValve.history
       (StreamlitTankValve.script_run
          (StreamlitTankValve.mkInput 100.05 0 false 0.8 0.35 1.2 false true)
          (StreamlitTankValve.initial_state 100)) = [].
Proof.
  assert (Hout : 0 <= 0.35) by q_closed.
  assert (Hcap : 0 <= 1.2 * TankValveSim.H_max
                              (TankValveSim.tank
                                 (TankValveSim.initial_state 100)))
    by q_closed.
  assert (Hfwd : TankValveSim.last_update (TankValveSim.initial_state 100)
                 <= 100.05) by q_closed.
  split; [repeat split; assumption |].
  split.
  - exact (proj1 (proj2 reset_run_outcomes
                    (TankValveSim.mkInput false 0 false 0.8 0.35 1.2 false
                       true 0 false 0 false false 100.05 7)
                    (TankValveSim.initial_state 100)
                    eq_refl eq_refl eq_refl eq_refl eq_refl Hout Hcap Hfwd)).
  - exact (proj2 (proj2 (proj1 reset_run_outcomes
                           (StreamlitTankValve.mkInput 100.05 0 false 0.8
                              0.35 1.2 false true)
                           (StreamlitTankValve.initial_state 100)
                           eq_refl eq_refl eq_refl))).
Defined.

(** ** The valve slider and the simulation *)

(** Two session states that agree on everything but [valve_position]. *)
Lemma same_but_valve_position_fields (st st' : TankValveSim.SessionState) :
  TankValveSim.set_valve_position st 0 = TankValveSim.set_valve_position st' 0 ->
  TankValveSim.tank st = TankValveSim.tank st'
  /\ TankValveSim.history st = TankValveSim.history st'
  /\ TankValveSim.last_update st = TankValveSim.last_update st'
  /\ TankValveSim.inlet_open st = TankValveSim.inlet_open st'
  /\ TankValveSim.paused st = TankValveSim.paused st'
  /\ TankValveSim.show_valve_modal st = TankValveSim.show_valve_modal st'
  /\ TankValveSim.modal_opened_at st = TankValveSim.modal_opened_at st'
  /\ TankValveSim.valve st = TankValveSim.valve st'.
Proof.
  intros Hsame.
  split; [exact (f_equal TankValveSim.tank Hsame) |].
  split; [exact (f_equal TankValveSim.history Hsame) |].
  split; [exact (f_equal TankValveSim.last_update Hsame) |].
  split; [exact (f_equal TankValveSim.inlet_open Hsame) |].
  split; [exact (f_equal TankValveSim.paused Hsame) |].
  split; [exact (f_equal TankValveSim.show_valve_modal Hsame) |].
  split; [exact (f_equal TankValveSim.modal_opened_at Hsame) |].
  exact (f_equal TankValveSim.valve Hsame).
Qed.

Ltac same_but_valve_position_direct st st' Hsame :=
  destruct st, st';
  unfold TankValveSim.set_valve_position in Hsame; sim_fields;
  injection Hsame as -> -> -> -> -> -> -> -> -> -> -> ->;
  reflexivity.

Lemma open_keeps_agreement (t : Q) (st st' : TankValveSim.SessionState) :
  TankValveSim.set_valve_position st 0 = TankValveSim.set_valve_position st' 0 ->
  TankValveSim.set_valve_position (TankValveSim.open_valve_control t st) 0
  = TankValveSim.set_valve_position (TankValveSim.open_valve_control t st') 0.
Proof. intros Hsame. same_but_valve_position_direct st st' Hsame. Qed.

Lemma toggle_inlet_keeps_agreement (st st' : TankValveSim.SessionState) :
  TankValveSim.set_valve_position st 0 = TankValveSim.set_valve_position st' 0 ->
  TankValveSim.set_valve_position (TankValveSim.toggle_inlet st) 0
  = TankValveSim.set_valve_position (TankValveSim.toggle_inlet st') 0.
Proof. intros Hsame. same_but_valve_position_direct st st' Hsame. Qed.

Lemma sliders_keep_agreement (q_in q_out area : Q)
    (st st' : TankValveSim.SessionState) :
  TankValveSim.set_valve_position st 0 = TankValveSim.set_valve_position st' 0 ->
  TankValveSim.set_valve_position
    (TankValveSim.set_tank (TankValveSim.set_sliders st q_in q_out area)
       (TankValveSim.set_A
          (TankValveSim.tank (TankValveSim.set_sliders st q_in q_out area))
          area)) 0
  = TankValveSim.set_valve_position
      (TankValveSim.set_tank (TankValveSim.set_sliders st' q_in q_out area)
         (TankValveSim.set_A
            (TankValveSim.tank (TankValveSim.set_sliders st' q_in q_out area))
            area)) 0.
Proof. intros Hsame. same_but_valve_position_direct st st' Hsame. Qed.

Lemma toggle_pause_keeps_agreement (st st' : TankValveSim.SessionState) :
  TankValveSim.set_valve_position st 0 = TankValveSim.set_valve_position st' 0 ->
  TankValveSim.set_valve_position (TankValveSim.toggle_pause st) 0
  = TankValveSim.set_valve_position (TankValveSim.toggle_pause st') 0.
Proof. intros Hsame. same_but_valve_position_direct st st' Hsame. Qed.

Lemma reset_keeps_agreement (st st' : TankValveSim.SessionState) :
  TankValveSim.set_valve_position st 0 = TankValveSim.set_valve_position st' 0 ->
  TankValveSim.set_valve_position (TankValveSim.reset st) 0
  = TankValveSim.set_valve_position (TankValveSim.reset st') 0.
Proof. intros Hsame. same_but_valve_position_direct st st' Hsame. Qed.

Lemma update_keeps_agreement (now wall : Q)
    (st st' : TankValveSim.SessionState) :
  TankValveSim.set_valve_position st 0 = TankValveSim.set_valve_position st' 0 ->
  TankValveSim.set_valve_position
    (TankValveSim.simulation_update now wall st) 0
  = TankValveSim.set_valve_position
      (TankValveSim.simulation_update now wall st') 0.
Proof.
  intros Hsame.
  destruct st, st';
    unfold TankValveSim.set_valve_position in Hsame; sim_fields;
    injection Hsame as -> -> -> -> -> -> -> -> -> -> -> ->.
  unfold TankValveSim.simulation_update. sim_fields.
  match goal with |- context [negb ?b] => destruct b end; reflexivity.
Qed.

(** The modal block keeps the agreement and takes the same exit, whatever
    the valve slider returns. *)
Lemma modal_block_keeps_agreement (i : TankValveSim.RunInput) (z : Z)
    (st st' : TankValveSim.SessionState) :
  TankValveSim.set_valve_position st 0 = TankValveSim.set_valve_position st' 0 ->
  TankValveSim.set_valve_position
    (fst (TankValveSim.modal_block (TankValveSim.with_valve_pos i z) st)) 0
  = TankValveSim.set_valve_position (fst (TankValveSim.modal_block i st')) 0
  /\ snd (TankValveSim.modal_block (TankValveSim.with_valve_pos i z) st)
     = snd (TankValveSim.modal_block i st').
Proof.
  intros Hsame.
  destruct st, st';
    unfold TankValveSim.set_valve_position in Hsame; sim_fields;
    injection Hsame as -> -> -> -> -> -> -> -> -> -> -> ->.
  unfold TankValveSim.modal_block, TankValveSim.modal_expired,
    TankValveSim.modal_timeout_check, TankValveSim.with_valve_pos.
  cbn [TankValveSim.run_modal_time TankValveSim.run_close_clicked
       TankValveSim.run_valve_pos TankValveSim.run_fully_open_clicked
       TankValveSim.run_fully_close_clicked].
  sim_fields.
  match goal with
  | |- context [if ?b then _ else (_, false)] => destruct b
  end; [| split; reflexivity].
  match goal with
  | |- context [match ?o with Some _ => _ | None => false end] =>
      destruct o as [t0 |]
  end.
  - destruct (truthy (Some t0)
              && Qlt_bool 5 (TankValveSim.run_modal_time i - t0));
      [split; reflexivity |].
    destruct (TankValveSim.run_close_clicked i); [split; reflexivity |].
    destruct (TankValveSim.run_fully_open_clicked i); [split; reflexivity |].
    destruct (TankValveSim.run_fully_close_clicked i); split; reflexivity.
  - destruct (TankValveSim.run_close_clicked i); [split; reflexivity |].
    destruct (TankValveSim.run_fully_open_clicked i); [split; reflexivity |].
    destruct (TankValveSim.run_fully_close_clicked i); split; reflexivity.
Qed.

(** A run keeps two such states in agreement, whatever the valve slider
    returns in either run. *)
Lemma script_run_same_but_valve_position (i : TankValveSim.RunInput) (z : Z)
    (st st' : TankValveSim.SessionState) :
  TankValveSim.set_valve_position st 0 = TankValveSim.set_valve_position st' 0 ->
  TankValveSim.set_valve_position
    (TankValveSim.script_run (TankValveSim.with_valve_pos i z) st) 0
  = TankValveSim.set_valve_position (TankValveSim.script_run i st') 0.
Proof.
  intros Hsame.
  unfold TankValveSim.script_run. cbv zeta.
  change (TankValveSim.run_open_clicked (TankValveSim.with_valve_pos i z))
    with (TankValveSim.run_open_clicked i).
  change (TankValveSim.run_open_time (TankValveSim.with_valve_pos i z))
    with (TankValveSim.run_open_time i).
  change (TankValveSim.run_inlet_clicked (TankValveSim.with_valve_pos i z))
    with (TankValveSim.run_inlet_clicked i).
  change (TankValveSim.run_inlet_flow (TankValveSim.with_valve_pos i z))
    with (TankValveSim.run_inlet_flow i).
  change (TankValveSim.run_outlet_flow (TankValveSim.with_valve_pos i z))
    with (TankValveSim.run_outlet_flow i).
  change (TankValveSim.run_tank_area (TankValveSim.with_valve_pos i z))
    with (TankValveSim.run_tank_area i).
  change (TankValveSim.run_pause_clicked (TankValveSim.with_valve_pos i z))
    with (TankValveSim.run_pause_clicked i).
  change (TankValveSim.run_reset_clicked (TankValveSim.with_valve_pos i z))
    with (TankValveSim.run_reset_clicked i).
  change (TankValveSim.run_current_time (TankValveSim.with_valve_pos i z))
    with (TankValveSim.run_current_time i).
  change (TankValveSim.run_wall (TankValveSim.with_valve_pos i z))
    with (TankValveSim.run_wall i).
  match goal with
  | |- context [TankValveSim.modal_block (TankValveSim.with_valve_pos i z) ?a]
    => set (before := a)
  end.
  match goal with
  | |- context [TankValveSim.modal_block i ?a] => set (before' := a)
  end.
  assert (Hbefore : TankValveSim.set_valve_position before 0
                    = TankValveSim.set_valve_position before' 0).
  { unfold before, before'.
    destruct (TankValveSim.run_reset_clicked i);
      [apply reset_keeps_agreement |];
      (destruct (TankValveSim.run_pause_clicked i);
       [apply toggle_pause_keeps_agreement |]);
      apply sliders_keep_agreement;
      (destruct (TankValveSim.run_inlet_clicked i);
       [apply toggle_inlet_keeps_agreement |]);
      (destruct (TankValveSim.run_open_clicked i);
       [apply open_keeps_agreement |]);
      exact Hsame. }
  clearbody before before'.
  destruct (modal_block_keeps_agreement i z before before' Hbefore)
    as [Hstate Hexit].
  destruct (TankValveSim.modal_block (TankValveSim.with_valve_pos i z) before)
    as [s1 r1].
  destruct (TankValveSim.modal_block i before') as [s2 r2].
  cbn [fst snd] in Hstate, Hexit. subst r2.
  destruct r1; [exact Hstate | apply update_keeps_agreement; exact Hstate].
Qed.

(** X14. The value of the valve slider in the control panel never reaches
    the simulation of [TankValveSim.py]: two sessions fed the same buttons,
    flow and area sliders and clock readings, and any two sequences of
    valve slider values, end with the same tank, history, time stamp,
    inlet and pause flags, modal state and [Valve] object; only
    [valve_position] can differ. *)
Theorem valve_slider_never_reaches_simulation :
  forall (t0 : Q) (inputs : list TankValveSim.RunInput)
         (pos : TankValveSim.RunInput -> Z),
    let a := TankValveSim.session t0 inputs in
    let b := TankValveSim.session t0
               (map (fun i => TankValveSim.with_valve_pos i (pos i)) inputs) in
    TankValveSim.tank b = TankValveSim.tank a
    /\ TankValveSim.history b = TankValveSim.history a
    /\ TankValveSim.last_update b = TankValveSim.last_update a
    /\ TankValveSim.inlet_open b = TankValveSim.inlet_open a
    /\ TankValveSim.paused b = TankValveSim.paused a
    /\ TankValveSim.show_valve_modal b = TankValveSim.show_valve_modal a
    /\ TankValveSim.modal_opened_at b = TankValveSim.modal_opened_at a
    /\ TankValveSim.valve b = TankValveSim.valve a.
Proof.
  intros t0 inputs pos. cbv zeta.
  apply same_but_valve_position_fields.
  unfold TankValveSim.session.
  assert (Hstart : TankValveSim.set_valve_position
                     (TankValveSim.initial_state t0) 0
                   = TankValveSim.set_valve_position
                       (TankValveSim.initial_state t0) 0) by reflexivity.
  revert Hstart.
  generalize (TankValveSim.initial_state t0) at 1 3.
  generalize (TankValveSim.initial_state t0).
  induction inputs as [| i inputs IH]; intros st' st Hsame; [exact Hsame |].
  cbn [map fold_left]. apply IH.
  apply script_run_same_but_valve_position. exact Hsame.
Qed.

(** The slider at 40 or at 90 while the panel is open: the same volume
    either way. *)
Example valve_slider_example :
  TankValveSim.tank
    (TankValveSim.session 100
       [TankValveSim.mkInput true 100 true 0.8 0.35 1.2 false false
          100.01 false 40 false false 100.02 0;
        TankValveSim.mkInput false 0 false 0.8 0.35 1.2 false false
          100.06 false 40 false false 100.07 0])
  = TankValveSim.tank
      (TankValveSim.session 100
         [TankValveSim.mkInput true 100 true 0.8 0.35 1.2 false false
            100.01 false 90 false false 100.02 0;
          TankValveSim.mkInput false 0 false 0.8 0.35 1.2 false false
            100.06 false 90 false false 100.07 0]).
Proof. reflexivity. Qed.

(** ** Slider timing *)

Lemma sim_update_volume_bounds (now wall : Q)
    (st : TankValveSim.SessionState) :
  TankValveSim.paused st = false ->
  0 <= TankValveSim.V_max (TankValveSim.tank st) ->
  0 <= TankValveSim.V
         (TankValveSim.tank (TankValveSim.simulation_update now wall st))
  /\ TankValveSim.V
       (TankValveSim.tank (TankValveSim.simulation_update now wall st))
     <= TankValveSim.V_max (TankValveSim.tank st)
  /\ TankValveSim.A
       (TankValveSim.tank (TankValveSim.simulation_update now wall st))
     = TankValveSim.A (TankValveSim.tank st).
Proof.
  intros Hrun Hcap. unfold TankValveSim.simulation_update.
  rewrite Hrun. cbn [negb]. unfold TankValveSim.step. cbn [fst]. sim_fields.
  split; [apply np_clip_ge_min; exact Hcap |].
  split; [apply np_clip_le_max | reflexivity].
Qed.

(** X23. When the area slider takes effect.  In [TankValveSim.py] the slider
    is applied before the update of the same run: a run that reaches the
    update (modal closed, simulation running after the buttons) ends with
    the volume inside the tank of the area just chosen.  In
    [streamlit-tank-valve.py] the update comes first and uses the area
    stored by the previous run: the run ends with the new area stored and
    the volume bounded by the old one. *)
Theorem area_slider_timing :
  (forall (i : TankValveSim.RunInput) (st : TankValveSim.SessionState),
      TankValveSim.run_open_clicked i = false ->
      TankValveSim.show_valve_modal st = false ->
      xorb (TankValveSim.paused st) (TankValveSim.run_pause_clicked i)
      = false ->
      0 <= TankValveSim.run_tank_area i
           * TankValveSim.H_max (TankValveSim.tank st) ->
      TankValveSim.A (TankValveSim.tank (TankValveSim.script_run i st))
      = TankValveSim.run_tank_area i
      /\ 0 <= TankValveSim.V (TankValveSim.tank (TankValveSim.script_run i st))
      /\ TankValveSim.V (TankValveSim.tank (TankValveSim.script_run i st))
         <= TankValveSim.run_tank_area i
            * TankValveSim.H_max (TankValveSim.tank st))
  /\
  (forall (i : StreamlitTankValve.RunInput)
          (st : StreamlitTankValve.SessionState),
      StreamlitTankValve.paused st = false ->
      StreamlitTankValve.run_inlet_clicked i = false ->
      0 <= StreamlitTankValve.tank_area st ->
      StreamlitTankValve.tank_area (StreamlitTankValve.script_run i st)
      = StreamlitTankValve.run_tank_area i
      /\ 0 <= StreamlitTankValve.tank_volume
                (StreamlitTankValve.script_run i st)
      /\ StreamlitTankValve.tank_volume (StreamlitTankValve.script_run i st)
         <= StreamlitTankValve.tank_area st).
Proof.
  split.
  - intros i st Hopen Hclosed Hpause Hcap.
    unfold TankValveSim.script_run. rewrite Hopen.
    set (st5 := if TankValveSim.run_reset_clicked i then _ else _).
    assert (Hshow5 : TankValveSim.show_valve_modal st5 = false).
    { unfold st5, TankValveSim.reset, TankValveSim.toggle_pause,
        TankValveSim.toggle_inlet.
      destruct (TankValveSim.run_reset_clicked i),
        (TankValveSim.run_pause_clicked i),
        (TankValveSim.run_inlet_clicked i); sim_fields; exact Hclosed. }
    assert (Hrun5 : TankValveSim.paused st5 = false).
    { unfold st5, TankValveSim.reset, TankValveSim.toggle_pause,
        TankValveSim.toggle_inlet.
      destruct (TankValveSim.run_reset_clicked i),
        (TankValveSim.run_pause_clicked i),
        (TankValveSim.run_inlet_clicked i),
        (TankValveSim.paused st) eqn:Hp; sim_fields;
        try rewrite Hp; cbn in Hpause |- *; congruence. }
    assert (HA5 : TankValveSim.A (TankValveSim.tank st5)
                  = TankValveSim.run_tank_area i).
    { unfold st5, TankValveSim.reset, TankValveSim.toggle_pause,
        TankValveSim.toggle_inlet.
      destruct (TankValveSim.run_reset_clicked i),
        (TankValveSim.run_pause_clicked i),
        (TankValveSim.run_inlet_clicked i); reflexivity. }
    assert (HH5 : TankValveSim.H_max (TankValveSim.tank st5)
                  = TankValveSim.H_max (TankValveSim.tank st)).
    { unfold st5, TankValveSim.reset, TankValveSim.toggle_pause,
        TankValveSim.toggle_inlet.
      destruct (TankValveSim.run_reset_clicked i),
        (TankValveSim.run_pause_clicked i),
        (TankValveSim.run_inlet_clicked i); reflexivity. }
    clearbody st5.
    unfold TankValveSim.modal_block. rewrite Hshow5.
    assert (Hcap5 : 0 <= TankValveSim.V_max (TankValveSim.tank st5))
      by (unfold TankValveSim.V_max; rewrite HA5, HH5; exact Hcap).
    destruct (sim_update_volume_bounds (TankValveSim.run_current_time i)
                (TankValveSim.run_wall i) st5 Hrun5 Hcap5)
      as [Hv0 [Hv1 HA]].
    unfold TankValveSim.V_max in Hv1. rewrite HA5, HH5 in Hv1.
    rewrite HA, HA5. repeat split; assumption.
  - intros i st Hrun Hinlet Harea.
    unfold StreamlitTankValve.script_run. rewrite Hinlet.
    assert (Hup : 0 <= StreamlitTankValve.tank_volume
                         (snd (StreamlitTankValve.run_update
                                 (StreamlitTankValve.run_current_time i)
                                 (StreamlitTankValve.run_wall i) st))
                  /\ StreamlitTankValve.tank_volume
                       (snd (StreamlitTankValve.run_update
                               (StreamlitTankValve.run_current_time i)
                               (StreamlitTankValve.run_wall i) st))
                     <= StreamlitTankValve.tank_area st).
    { unfold StreamlitTankValve.run_update,
        StreamlitTankValve.simulation_update.
      rewrite Hrun. cbn [negb snd].
      cbn [StreamlitTankValve.set_history StreamlitTankValve.set_last_update
           StreamlitTankValve.set_tank_volume StreamlitTankValve.tank_volume].
      unfold StreamlitTankValve.step.
      assert (Hcap : StreamlitTankValve.V_max
                       (StreamlitTankValve.set_A
                          (StreamlitTankValve.create_tank st)
                          (StreamlitTankValve.tank_area st))
                     == StreamlitTankValve.tank_area st)
        by (unfold StreamlitTankValve.V_max; cbn; ring).
      match goal with
      | |- 0 <= np_clip ?a 0 ?hi /\ _ =>
          destruct (np_clip_range a hi) as [H0 H1]; [lra |]
      end.
      split; lra. }
    destruct Hup as [Hv0 Hv1].
    destruct (StreamlitTankValve.run_pause_clicked i);
      [| destruct (StreamlitTankValve.run_reset_clicked i)];
      cbn; repeat split; try assumption; lra.
Qed.

(** A full tank of area 3 in [streamlit-tank-valve.py] after the slider
    is pulled down to 0.5: the run ends with area 0.5 and a volume of
    2.965, which the update of the next run cuts down to 0.5. *)
Lemma area_slider_timing_witness :
  (StreamlitTankValve.paused
     (StreamlitTankValve.set_tank_volume
        (StreamlitTankValve.set_sliders (StreamlitTankValve.initial_state 100)
           0.8 0.35 3) 3) = false
   /\ 0 <= StreamlitTankValve.tank_area
             (StreamlitTankValve.set_tank_volume
                (StreamlitTankValve.set_sliders
                   (StreamlitTankValve.initial_state 100) 0.8 0.35 3) 3))
  /\ StreamlitTankValve.tank_area
       (StreamlitTankValve.script_run
          (StreamlitTankValve.mkInput 100.1 0 false 0.8 0.35 0.5 false false)
          (StreamlitTankValve.set_tank_volume
             (StreamlitTankValve.set_sliders
                (StreamlitTankValve.initial_state 100) 0.8 0.35 3) 3))
     = 0.5
  /\ StreamlitTankValve.tank_volume
       (StreamlitTankValve.script_run
          (StreamlitTankValve.mkInput 100.1 0 false 0.8 0.35 0.5 false false)
          (StreamlitTankValve.set_tank_volume
             (StreamlitTankValve.set_sliders
                (StreamlitTankValve.initial_state 100) 0.8 0.35 3) 3))
     <= 3
  /\ StreamlitTankValve.tank_volume
       (StreamlitTankValve.script_run
          (StreamlitTankValve.mkInput 100.1 0 false 0.8 0.35 0.5 false false)
          (StreamlitTankValve.set_tank_volume
             (StreamlitTankValve.set_sliders
                (StreamlitTankValve.initial_state 100) 0.8 0.35 3) 3))
     == 2.965.
Proof.
  assert (Harea : 0 <= StreamlitTankValve.tank_area
                         (StreamlitTankValve.set_tank_volume
                            (StreamlitTankValve.set_sliders
                               (StreamlitTankValve.initial_state 100)
                               0.8 0.35 3) 3)) by q_closed.
  split; [split; [reflexivity | exact Harea] |].
  destruct (proj2 area_slider_timing
              (StreamlitTankValve.mkInput 100.1 0 false 0.8 0.35 0.5
                 false false)
              (StreamlitTankValve.set_tank_volume
                 (StreamlitTankValve.set_sliders
                    (StreamlitTankValve.initial_state 100) 0.8 0.35 3) 3)
              eq_refl eq_refl Harea) as [Ha [_ Hv]].
  split; [exact Ha | split; [exact Hv |]].
  vm_compute. reflexivity.
Defined.

(** ** Chronological order of the history *)

Lemma StronglySorted_skipn {X : Type} (R : X -> X -> Prop) (n : nat)
    (l : list X) :
  StronglySorted R l -> StronglySorted R (skipn n l).
Proof.
  revert l. induction n as [| n IH]; intros l Hl; [exact Hl |].
  destruct l as [| x l]; [exact Hl |].
  cbn [skipn]. apply IH. inversion Hl. assumption.
Qed.

(** X24. If the samples arrive with non-decreasing time stamps, the history
    buffer filled from empty is in chronological order too, and every sample
    it holds is one of those that arrived. *)
Theorem history_stays_chronological :
  forall ss : list HistorySample,
    StronglySorted (fun a b => sample_time a <= sample_time b) ss ->
    StronglySorted (fun a b => sample_time a <= sample_time b)
      (record_all [] ss)
    /\ (forall s, In s (record_all [] ss) -> In s ss).
Proof.
  intros ss Hsorted. rewrite record_all_last_100.
  split; [apply StronglySorted_skipn; exact Hsorted |].
  intros s Hin.
  rewrite <- (firstn_skipn (length ss - 100) ss).
  apply in_or_app. right. exact Hin.
Qed.

Lemma history_stays_chronological_witness :
  StronglySorted (fun a b => sample_time a <= sample_time b)
    [mkSample 1 (Some 0) 0 0.35; mkSample 1 (Some 0) 0 0.35;
     mkSample 2.5 (Some 0) 0 0.35]
  /\ StronglySorted (fun a b => sample_time a <= sample_time b)
       (record_all []
          [mkSample 1 (Some 0) 0 0.35; mkSample 1 (Some 0) 0 0.35;
           mkSample 2.5 (Some 0) 0 0.35]).
Proof.
  assert (Hs : StronglySorted (fun a b => sample_time a <= sample_time b)
                 [mkSample 1 (Some 0) 0 0.35; mkSample 1 (Some 0) 0 0.35;
                  mkSample 2.5 (Some 0) 0 0.35])
    by (repeat constructor; q_closed).
  split; [exact Hs |].
  exact (proj1 (history_stays_chronological _ Hs)).
Defined.
